(** * mmmegamarket: a shallow embedding of the MM Mega Market client

    The development follows the Python package module by module:
    [config.py] (settings records), [stores.py] (store directory),
    [models.py] (typed records), [auth.py] (B2B authenticator) and
    [api_client.py] (query executor and catalog client).

    Modelling conventions.
    - Parsed JSON is the inductive type [json]; Python's [None] is [JNull].
    - Python [float] values (prices, percentages, clock readings) are
      modelled by exact rationals [Q]: the order and the field operations
      are kept, rounding, infinities and NaN are outside the model.
    - [dict]s that are used as maps are [gmap]s; parsed JSON objects and
      header dictionaries keep their insertion order as association lists.
    - Code with effects (clock, sleeping, HTTP, mutation of the client
      objects) runs in a state monad that can also raise the Python
      exceptions which the source does not catch. *)

From Stdlib Require Import ZArith QArith Qminmax String Ascii List Lia Lqa Sorting.Sorted.
From stdpp Require Import base option gmap strings pretty list.

Local Open Scope string_scope.
Local Open Scope list_scope.

(** ** Parsed JSON values *)

#[warnings="-register-all"]
Inductive json : Type :=
| JNull
| JBool (b : bool)
| JInt (z : Z)
| JFloat (q : Q)
| JStr (s : string)
| JList (l : list json)
| JDict (kvs : list (string * json)).

(** ** Strings: [str.replace] *)

(** [replace_from old new skip s] scans [s] left to right; [skip] counts the
    characters of a match that are still to be dropped. *)
Fixpoint replace_from (old new : string) (skip : nat) (s : string) : string :=
  match s with
  | EmptyString => EmptyString
  | String c s' =>
      match skip with
      | S k => replace_from old new k s'
      | O =>
          if String.prefix old s
          then new ++ replace_from old new (String.length old - 1) s'
          else String c (replace_from old new O s')
      end
  end.

(** [s.replace(old, new)] for a non-empty [old] (the only use in the
    source): every non-overlapping occurrence, leftmost first. *)
Definition str_replace (old new s : string) : string :=
  replace_from old new O s.

(** ** config.py *)

Module PlatformConfig.
Record t : Type := {
  name : string;
  endpoint : string;
  store_code : string;
  requires_auth : bool
}.

Definition with_store_code (p : t) (c : string) : t :=
  {| name := name p; endpoint := endpoint p; store_code := c;
     requires_auth := requires_auth p |}.
End PlatformConfig.

Module AuthConfig.
Record t : Type := {
  username : option string;
  password : option string;
  (** [Optional[str]]; the authenticator assigns it without validation,
      so any parsed value can end up here. [JNull] is [None]. *)
  customer_token : json
}.

Definition with_customer_token (a : t) (tok : json) : t :=
  {| username := username a; password := password a; customer_token := tok |}.
End AuthConfig.

Module MMConfig.
Record t : Type := {
  b2c : PlatformConfig.t;
  b2b : PlatformConfig.t;
  b2b_auth : AuthConfig.t;
  timeout : Z;
  retry_attempts : Z;
  rate_limit_delay : Q;
  user_agent : string
}.

(** [config.b2b_auth.customer_token = tok] *)
Definition set_customer_token (c : t) (tok : json) : t :=
  {| b2c := b2c c; b2b := b2b c;
     b2b_auth := AuthConfig.with_customer_token (b2b_auth c) tok;
     timeout := timeout c; retry_attempts := retry_attempts c;
     rate_limit_delay := rate_limit_delay c; user_agent := user_agent c |}.

(** [config.b2c.store_code = c2c; config.b2b.store_code = c2b] *)
Definition set_store_codes (c : t) (c2c c2b : string) : t :=
  {| b2c := PlatformConfig.with_store_code (b2c c) c2c;
     b2b := PlatformConfig.with_store_code (b2b c) c2b;
     b2b_auth := b2b_auth c; timeout := timeout c;
     retry_attempts := retry_attempts c;
     rate_limit_delay := rate_limit_delay c; user_agent := user_agent c |}.

(** [MMConfig.from_env()], the three optional [MMPRO_*] environment
    variables being as given. *)
Definition from_env (env_user env_pass : option string) (env_token : json) : t :=
  {| b2c := {| PlatformConfig.name := "online.mmvietnam.com";
               PlatformConfig.endpoint := "https://online.mmvietnam.com/graphql";
               PlatformConfig.store_code := "b2c_10010_vi";
               PlatformConfig.requires_auth := false |};
     b2b := {| PlatformConfig.name := "mmpro.vn";
               PlatformConfig.endpoint := "https://mmpro.vn/graphql";
               PlatformConfig.store_code := "mm_10010_vi";
               PlatformConfig.requires_auth := true |};
     b2b_auth := {| AuthConfig.username := env_user;
                    AuthConfig.password := env_pass;
                    AuthConfig.customer_token := env_token |};
     timeout := 30;
     retry_attempts := 3;
     rate_limit_delay := 1%Q;
     user_agent := "Mozilla/5.0 (X11; Linux x86_64) AppleWebKit/537.36 (KHTML, like Gecko) Chrome/130.0.0.0 Safari/537.36" |}.
End MMConfig.

(** ** stores.py *)

Module Store.
Record t : Type := {
  code : string;
  name : string;
  region : option string
}.

(** The chain of three [replace] calls shared by [get_b2c_store_code],
    [get_b2b_store_code] and [StoreManager.get_store]. *)
Definition numeric_code (c : string) : string :=
  str_replace "_vi" "" (str_replace "mm_" "" (str_replace "b2c_" "" c)).

Definition get_b2c_store_code (self : t) : string :=
  "b2c_" ++ numeric_code (code self) ++ "_vi".

Definition get_b2b_store_code (self : t) : string :=
  "mm_" ++ numeric_code (code self) ++ "_vi".
End Store.

Module StoreManager.

Definition KNOWN_STORES_items : list (string * Store.t) :=
  [ ("10010", {| Store.code := "10010"; Store.name := "MM Mega Market An Phú";
                 Store.region := Some "South" |});
    ("10015", {| Store.code := "10015"; Store.name := "MM Mega Market Bình Phú";
                 Store.region := Some "South" |});
    ("10020", {| Store.code := "10020"; Store.name := "MM Mega Market Bình Tân";
                 Store.region := Some "South" |});
    ("10035", {| Store.code := "10035"; Store.name := "MM Mega Market Thủ Đức";
                 Store.region := Some "South" |}) ].

Definition KNOWN_STORES : gmap string Store.t := list_to_map KNOWN_STORES_items.

Record t : Type := {
  (** whether an API client was handed to the constructor *)
  api_client : bool;
  current_store : option Store.t
}.

(** [StoreManager.__init__] *)
Definition init (client : bool) : t :=
  {| api_client := client; current_store := KNOWN_STORES !! "10010" |}.

Definition get_store (store_code : string) : option Store.t :=
  KNOWN_STORES !! Store.numeric_code store_code.

(** A [Store] is a pydantic model and therefore always truthy: [if store]
    only tests for [None]. *)
Definition set_current_store (store_code : string) (self : t) : bool * t :=
  match get_store store_code with
  | Some store =>
      (true, {| api_client := api_client self; current_store := Some store |})
  | None => (false, self)
  end.

Definition get_current_store (self : t) : option Store.t :=
  current_store self.

(** The configuration object is mutated in place; the updated object is
    returned next to the boolean. The manager itself is not touched. *)
Definition update_config_store (config : MMConfig.t) (store_code : string)
  : bool * MMConfig.t :=
  match get_store store_code with
  | None => (false, config)
  | Some store =>
      (true, MMConfig.set_store_codes config
               (Store.get_b2c_store_code store) (Store.get_b2b_store_code store))
  end.

(** The calls that the holder of a manager and of the shared configuration
    can make on them. *)
Inductive call : Type :=
| CallListStores
| CallGetStore (store_code : string)
| CallSetCurrentStore (store_code : string)
| CallGetCurrentStore
| CallUpdateConfigStore (store_code : string)
| CallGetStoresByRegion (region : string).

(** [list_stores] asks the consumer backend through the client and
    [get_stores_by_region] filters the directory; like the two getters
    they assign neither to the manager nor to the configuration. *)
Definition run_call (c : call) (st : t * MMConfig.t) : t * MMConfig.t :=
  match c with
  | CallListStores => st
  | CallGetStore _ => st
  | CallSetCurrentStore sc => (snd (set_current_store sc (fst st)), snd st)
  | CallGetCurrentStore => st
  | CallUpdateConfigStore sc => (fst st, snd (update_config_store (snd st) sc))
  | CallGetStoresByRegion _ => st
  end.

(** States of the directory reachable from a freshly constructed manager. *)
Inductive reachable : t * MMConfig.t -> Prop :=
| reach_init client config : reachable (init client, config)
| reach_call c st : reachable st -> reachable (run_call c st).

End StoreManager.

(** ** models.py *)

(** Python's [x < y] on floats, as a boolean. *)
Definition Qlt_bool (x y : Q) : bool := negb (Qle_bool y x).

Module Price.
Record t : Type := {
  value : Q;
  currency : string
}.
End Price.

Module PriceRange.
(** [discount_amount] is [Optional[float]] in the class, but [__init__]
    fills it in when it is absent, so a constructed instance always
    holds a number. *)
Record t : Type := {
  final_price : Price.t;
  regular_price : Price.t;
  discount_amount : Q
}.

(** [PriceRange.__init__(final_price=.., regular_price=.., discount_amount=..)] *)
Definition init (final regular : Price.t) (discount : option Q) : t :=
  {| final_price := final;
     regular_price := regular;
     discount_amount :=
       match discount with
       | Some d => d
       | None => (Price.value regular - Price.value final)%Q
       end |}.

Definition has_discount (self : t) : bool :=
  Qlt_bool 0 (discount_amount self).

Definition discount_percentage (self : t) : Q :=
  if Qlt_bool 0 (Price.value (regular_price self))
  then (discount_amount self / Price.value (regular_price self) * 100)%Q
  else 0%Q.
End PriceRange.

Module Category.
Record t : Type := {
  uid : option string;
  name : string
}.
End Category.

Module Product.
Record t : Type := {
  id : Z;
  uid : string;
  name : string;
  sku : string;
  price_range : PriceRange.t;
  stock_status : string;
  url_key : string;
  small_image_url : option string;
  categories : list Category.t;
  rating_summary : option Q;
  platform : option string;
  scraped_at : Q
}.

Definition full_url (self : t) : string :=
  match platform self with
  | Some "b2c" => "https://online.mmvietnam.com/" ++ url_key self ++ ".html"
  | Some "b2b" => "https://mmpro.vn/product/" ++ url_key self ++ ".html"
  | _ => "/" ++ url_key self ++ ".html"
  end.

Definition price (self : t) : Q :=
  Price.value (PriceRange.final_price (price_range self)).

Definition regular_price (self : t) : Q :=
  Price.value (PriceRange.regular_price (price_range self)).

Definition is_in_stock (self : t) : bool :=
  String.eqb (stock_status self) "IN_STOCK".
End Product.

Module SearchResult.
Record t : Type := {
  products : list Product.t;
  total_count : Z;
  total_pages : Z;
  current_page : Z;
  platform : string
}.
End SearchResult.

Module PriceComparison.
Record t : Type := {
  product_id : Z;
  sku : string;
  name : string;
  b2c_price : Q;
  b2b_price : Q;
  difference : Q;
  savings_percentage : Q;
  b2c_url : string;
  b2b_url : string
}.
End PriceComparison.

(** ** Python values and built-ins used by the client *)

(** The exceptions that the modelled code can let escape. *)
Inductive exn : Type :=
| KeyError
| TypeError
| AttributeError
| ValidationError.

Inductive res (A : Type) : Type :=
| Ok (a : A)
| Raise (e : exn).
Arguments Ok {A} a.
Arguments Raise {A} e.

#[global] Instance res_ret : MRet res := fun A a => Ok a.
#[global] Instance res_bind : MBind res := fun A B f m =>
  match m with
  | Ok a => f a
  | Raise e => Raise e
  end.

(** What the embedding takes from the Python runtime and from pydantic
    rather than from the repository: the text of [repr] on a value that is
    not a string, [str.lower], and the coercions pydantic applies to the
    fields declared [int], [float] and [str]. *)
Class PyRuntime : Type := {
  py_repr : json -> string;
  str_lower : string -> string;
  as_int : json -> option Z;
  as_float : json -> option Q;
  as_str : json -> option string
}.

(** Lookup in a parsed JSON object. *)
Fixpoint assoc (key : string) (kvs : list (string * json)) : option json :=
  match kvs with
  | [] => None
  | (k, v) :: kvs' => if String.eqb key k then Some v else assoc key kvs'
  end.

(** [pat in s] on strings. *)
Fixpoint substring_of (pat s : string) : bool :=
  String.prefix pat s ||
  match s with
  | EmptyString => false
  | String _ s' => substring_of pat s'
  end.

Definition is_str (key : string) (v : json) : bool :=
  match v with
  | JStr s => String.eqb key s
  | _ => false
  end.

(** Truth value of a parsed value ([if v], [not v]). *)
Definition py_truthy (v : json) : bool :=
  match v with
  | JNull => false
  | JBool b => b
  | JInt z => negb (z =? 0)%Z
  | JFloat q => negb (Qeq_bool q 0)
  | JStr s => negb (String.eqb s "")
  | JList l => match l with [] => false | _ :: _ => true end
  | JDict kvs => match kvs with [] => false | _ :: _ => true end
  end.

(** [key in v] for a string [key]. *)
Definition py_contains (key : string) (v : json) : res bool :=
  match v with
  | JDict kvs => Ok (match assoc key kvs with Some _ => true | None => false end)
  | JList l => Ok (existsb (is_str key) l)
  | JStr s => Ok (substring_of key s)
  | _ => Raise TypeError
  end.

(** [v[key]] for a string [key]. *)
Definition py_getitem (v : json) (key : string) : res json :=
  match v with
  | JDict kvs =>
      match assoc key kvs with
      | Some x => Ok x
      | None => Raise KeyError
      end
  | _ => Raise TypeError
  end.

(** [v.get(key, dflt)] *)
Definition py_get (v : json) (key : string) (dflt : json) : res json :=
  match v with
  | JDict kvs =>
      match assoc key kvs with
      | Some x => Ok x
      | None => Ok dflt
      end
  | _ => Raise AttributeError
  end.

(** The elements that [for x in v] runs through. *)
Definition py_iter (v : json) : res (list json) :=
  match v with
  | JList l => Ok l
  | JDict kvs => Ok (map (fun kv => JStr (fst kv)) kvs)
  | JStr s => Ok (map (fun c => JStr (String c EmptyString)) (list_ascii_of_string s))
  | _ => Raise TypeError
  end.

(** [str(v)]: a string is its own text, anything else is printed by [repr]. *)
Definition py_str `{PyRuntime} (v : json) : string :=
  match v with
  | JStr s => s
  | _ => py_repr v
  end.

(** [a or b] on optional strings, and the test [not a]. *)
Definition str_truthy (a : option string) : bool :=
  match a with
  | Some s => negb (String.eqb s "")
  | None => false
  end.

Definition py_or (a b : option string) : option string :=
  if str_truthy a then a else b.

(** pydantic validation of one field. *)
Definition validate {A : Type} (coerce : json -> option A) (v : json) : res A :=
  match coerce v with
  | Some a => Ok a
  | None => Raise ValidationError
  end.

(** A field declared [Optional[T]]. *)
Definition optional {A : Type} (coerce : json -> option A) (v : json) : option (option A) :=
  match v with
  | JNull => Some None
  | _ => option_map Some (coerce v)
  end.

(** ** The world: clock, network, and the client objects *)

Inductive Method : Type := GET | POST.

(** One HTTP request. A GET carries [query], [operationName] and the
    JSON-encoded [variables] as query parameters, a POST carries them as
    its JSON payload. *)
Record Request : Type := {
  method : Method;
  url : string;
  query : string;
  operation_name : option string;
  variables : option json;
  headers : list (string * string);
  req_timeout : Z
}.

(** What [requests] hands back: a [RequestException] (connection error,
    timeout, a status that [raise_for_status] rejects, a body that is not
    JSON), or the parsed body. *)
Inductive Outcome : Type :=
| RequestException
| Body (data : json).

Record Reply : Type := {
  outcome : Outcome;
  latency : Q
}.

Inductive Event : Type :=
| Slept (seconds : Q)
| Sent (at_time : Q) (req : Request).

(** The remote side: its reply may depend on everything that happened
    before and on the request. *)
Definition Backend : Type := list Event -> Request -> Reply.

Record State : Type := {
  config : MMConfig.t;          (* the shared [MMConfig] object *)
  b2b_token : json;             (* [MMAuthClient.b2b_token] *)
  _last_request_time : Q;       (* [MMAPIClient._last_request_time] *)
  clock : Q;                    (* what [time.time()] returns *)
  log : list Event              (* sleeps and requests so far, oldest first *)
}.

Definition M (A : Type) : Type := State -> res A * State.

#[global] Instance M_ret : MRet M := fun A a s => (Ok a, s).
#[global] Instance M_bind : MBind M := fun A B f m s =>
  match m s with
  | (Ok a, s') => f a s'
  | (Raise e, s') => (Raise e, s')
  end.

Definition lift {A : Type} (r : res A) : M A := fun s => (r, s).
Definition gets {A : Type} (f : State -> A) : M A := fun s => (Ok (f s), s).
Definition modify (f : State -> State) : M unit := fun s => (Ok tt, f s).

Definition set_config (c : MMConfig.t) (s : State) : State :=
  {| config := c; b2b_token := b2b_token s;
     _last_request_time := _last_request_time s; clock := clock s; log := log s |}.
Definition set_b2b_token (tok : json) (s : State) : State :=
  {| config := config s; b2b_token := tok;
     _last_request_time := _last_request_time s; clock := clock s; log := log s |}.
Definition set_last_request_time (t : Q) (s : State) : State :=
  {| config := config s; b2b_token := b2b_token s;
     _last_request_time := t; clock := clock s; log := log s |}.
Definition advance (d : Q) (e : Event) (s : State) : State :=
  {| config := config s; b2b_token := b2b_token s;
     _last_request_time := _last_request_time s;
     clock := (clock s + d)%Q; log := log s ++ [e] |}.

Definition time_time : M Q := gets clock.
Definition time_sleep (seconds : Q) : M unit := modify (advance seconds (Slept seconds)).

(** [MMAuthClient.__init__] and [MMAPIClient.__init__]: the token of the
    configuration is taken over when it is truthy, the watermark starts
    at 0. *)
Definition MMAPIClient_init (cfg : MMConfig.t) (now : Q) : State :=
  {| config := cfg;
     b2b_token :=
       if py_truthy (AuthConfig.customer_token (MMConfig.b2b_auth cfg))
       then AuthConfig.customer_token (MMConfig.b2b_auth cfg) else JNull;
     _last_request_time := 0%Q;
     clock := now;
     log := [] |}.

(** Construction of the pydantic models from parsed values. *)
Section Validation.
Context `{PyRuntime}.

Definition Price_init (value currency : json) : res Price.t :=
  v ← validate as_float value;
  c ← validate as_str currency;
  mret {| Price.value := v; Price.currency := c |}.

Definition Category_init (uid name : json) : res Category.t :=
  u ← validate (optional as_str) uid;
  n ← validate as_str name;
  mret {| Category.uid := u; Category.name := n |}.

Definition Product_init (id uid name sku : json) (price_range : PriceRange.t)
    (stock_status url_key small_image_url : json)
    (categories : list Category.t) (rating_summary : json)
    (platform : string) (now : Q) : res Product.t :=
  id' ← validate as_int id;
  uid' ← validate as_str uid;
  name' ← validate as_str name;
  sku' ← validate as_str sku;
  stock_status' ← validate as_str stock_status;
  url_key' ← validate as_str url_key;
  small_image_url' ← validate (optional as_str) small_image_url;
  rating_summary' ← validate (optional as_float) rating_summary;
  mret {| Product.id := id'; Product.uid := uid'; Product.name := name';
          Product.sku := sku'; Product.price_range := price_range;
          Product.stock_status := stock_status'; Product.url_key := url_key';
          Product.small_image_url := small_image_url';
          Product.categories := categories;
          Product.rating_summary := rating_summary';
          Product.platform := Some platform;
          Product.scraped_at := now |}.

Definition SearchResult_init (products : list Product.t)
    (total_count total_pages : json) (current_page : Z) (platform : string)
    : res SearchResult.t :=
  tc ← validate as_int total_count;
  tp ← validate as_int total_pages;
  mret {| SearchResult.products := products; SearchResult.total_count := tc;
          SearchResult.total_pages := tp;
          SearchResult.current_page := current_page;
          SearchResult.platform := platform |}.
End Validation.

(** ** auth.py and api_client.py *)

Definition GENERATE_TOKEN_MUTATION : string :=
  "
        mutation generateCustomerToken($email: String!, $password: String!) {
          generateCustomerToken(email: $email, password: $password) {
            token
          }
        }
        ".

Definition PRODUCT_SEARCH_QUERY : string :=
  "
query ProductSearch($currentPage: Int, $inputText: String!, $pageSize: Int) {
  products(currentPage: $currentPage, pageSize: $pageSize, search: $inputText) {
    items {
      id
      uid
      name
      sku
      price_range {
        maximum_price {
          final_price { currency value }
          regular_price { currency value }
        }
      }
      small_image { url }
      stock_status
      url_key
      categories { uid name }
    }
    total_count
    page_info { total_pages }
  }
}
".

(** The key of [comparisons.sort(key=..., reverse=True)]: [a] may stand
    before [b] when its savings percentage is at least that of [b]. *)
Definition savings_ge (a b : PriceComparison.t) : Prop :=
  (PriceComparison.savings_percentage b <= PriceComparison.savings_percentage a)%Q.

(** [comparisons.sort(key=lambda x: x.savings_percentage, reverse=True)].
    Python's sort is stable, with [reverse=True] too: comparisons with
    equal savings keep the order in which they were appended. The result
    of a stable sort is determined by the key; it is written here as an
    insertion sort, in which an entry goes behind the entries that save
    strictly more and before all others. *)
Fixpoint insert_by_savings (c : PriceComparison.t) (sorted : list PriceComparison.t)
  : list PriceComparison.t :=
  match sorted with
  | [] => [c]
  | x :: sorted' =>
      if Qlt_bool (PriceComparison.savings_percentage c)
                  (PriceComparison.savings_percentage x)
      then x :: insert_by_savings c sorted'
      else c :: sorted
  end.

Definition sort_by_savings (comparisons : list PriceComparison.t)
  : list PriceComparison.t :=
  foldr insert_by_savings [] comparisons.

Section Client.
Context `{PyRuntime} (backend : Backend).

(** [requests.get] / [requests.post]: the request is logged with the time
    at which it is issued and the clock moves by the time it took. *)
Definition http (req : Request) : M Outcome := fun s =>
  let reply := backend (log s) req in
  (Ok (outcome reply), advance (latency reply) (Sent (clock s) req) s).

(** *** MMAuthClient *)

Definition base_headers (store : string) (cfg : MMConfig.t) : list (string * string) :=
  [ ("Content-Type", "application/json");
    ("store", store);
    ("User-Agent", MMConfig.user_agent cfg) ].

Definition b2b_headers (cfg : MMConfig.t) (tok : json) : list (string * string) :=
  let hdrs := base_headers (PlatformConfig.store_code (MMConfig.b2b cfg)) cfg in
  if py_truthy tok
  then hdrs ++ [("Authorization", ("Bearer " ++ py_str tok)%string)]
  else hdrs.

Definition get_b2b_headers : M (list (string * string)) :=
  cfg ← gets config;
  tok ← gets b2b_token;
  mret (b2b_headers cfg tok).

Definition get_b2c_headers : M (list (string * string)) :=
  cfg ← gets config;
  mret (base_headers (PlatformConfig.store_code (MMConfig.b2c cfg)) cfg).

Definition is_b2b_authenticated : M bool :=
  tok ← gets b2b_token;
  mret (match tok with JNull => false | _ => true end).

Definition authenticate_b2b (username password : option string) : M bool :=
  cfg ← gets config;
  let email := py_or username (AuthConfig.username (MMConfig.b2b_auth cfg)) in
  let pwd := py_or password (AuthConfig.password (MMConfig.b2b_auth cfg)) in
  match email, pwd with
  | Some email', Some pwd' =>
      if negb (str_truthy email) || negb (str_truthy pwd) then mret false
      else
        r ← http {| method := POST;
                    url := PlatformConfig.endpoint (MMConfig.b2b cfg);
                    query := GENERATE_TOKEN_MUTATION;
                    operation_name := Some "generateCustomerToken";
                    variables := Some (JDict [("email", JStr email');
                                              ("password", JStr pwd')]);
                    headers := base_headers (PlatformConfig.store_code (MMConfig.b2b cfg)) cfg;
                    req_timeout := MMConfig.timeout cfg |};
        match r with
        | RequestException => mret false
        | Body data =>
            has_errors ← lift (py_contains "errors" data);
            if has_errors : bool then
              (* the log line formats [data['errors']] *)
              _ ← lift (py_getitem data "errors");
              mret false
            else
              has_data ← lift (py_contains "data" data);
              has_token ←
                (if has_data : bool
                 then d ← lift (py_getitem data "data");
                      lift (py_contains "generateCustomerToken" d)
                 else mret false);
              if has_token : bool then
                d ← lift (py_getitem data "data");
                token_data ← lift (py_getitem d "generateCustomerToken");
                tok ← lift (py_getitem token_data "token");
                modify (set_b2b_token tok);;
                modify (fun s => set_config (MMConfig.set_customer_token (config s) tok) s);;
                mret true
              else mret false
        end
  | _, _ => mret false
  end.

(** *** MMAPIClient *)

Definition _rate_limit : M unit :=
  now ← time_time;
  last ← gets _last_request_time;
  delay ← gets (fun s => MMConfig.rate_limit_delay (config s));
  let elapsed := (now - last)%Q in
  (if Qlt_bool elapsed delay then time_sleep (delay - elapsed) else mret tt);;
  now' ← time_time;
  modify (set_last_request_time now').

(** The GET that [_execute_query] issues on each attempt. *)
Definition query_request (endpoint query_text op_name : string) (vars : json)
    (hdrs : list (string * string)) (cfg : MMConfig.t) : Request :=
  {| method := GET; url := endpoint; query := query_text;
     operation_name := Some op_name; variables := Some vars;
     headers := hdrs; req_timeout := MMConfig.timeout cfg |}.

(** ["authorization" in str(err).lower()] *)
Definition mentions_authorization (err : json) : bool :=
  substring_of "authorization" (str_lower (py_str err)).

(** The body of [for attempt in range(retry_attempts)], with [remaining]
    iterations still to run, this one included. *)
Fixpoint attempt_loop (remaining : nat) (attempt : Z)
    (platform endpoint query_text op_name : string) (vars : json)
    (hdrs : list (string * string)) : M (option json) :=
  match remaining with
  | O => mret None
  | S k =>
      cfg ← gets config;
      r ← http (query_request endpoint query_text op_name vars hdrs cfg);
      match r with
      | RequestException =>
          if (attempt <? MMConfig.retry_attempts cfg - 1)%Z
          then time_sleep (inject_Z (2 ^ attempt));;
               attempt_loop k (attempt + 1)%Z platform endpoint query_text op_name vars hdrs
          else mret None
      | Body data =>
          has_errors ← lift (py_contains "errors" data);
          if has_errors : bool then
            (* the log line formats [data['errors']] *)
            errors ← lift (py_getitem data "errors");
            if String.eqb platform "b2b" then
              errs ← lift (py_iter errors);
              if existsb mentions_authorization errs then
                ok ← authenticate_b2b None None;
                if ok : bool then
                  hdrs' ← get_b2b_headers;
                  attempt_loop k (attempt + 1)%Z platform endpoint query_text op_name vars hdrs'
                else mret None
              else mret None
            else mret None
          else mret (Some data)
      end
  end.

Definition _execute_query (platform query_text : string) (vars : json)
    (op_name : string) : M (option json) :=
  _rate_limit;;
  cfg ← gets config;
  let endpoint :=
    if String.eqb platform "b2c"
    then PlatformConfig.endpoint (MMConfig.b2c cfg)
    else PlatformConfig.endpoint (MMConfig.b2b cfg) in
  hdrs ← (if String.eqb platform "b2c" then get_b2c_headers else get_b2b_headers);
  attempt_loop (Z.to_nat (MMConfig.retry_attempts cfg)) 0%Z
               platform endpoint query_text op_name vars hdrs.

Definition _parse_product (item : json) (platform : string) : M Product.t :=
  price_range ← lift (py_getitem item "price_range");
  price_info ← lift (py_getitem price_range "maximum_price");
  id ← lift (py_getitem item "id");
  uid ← lift (py_getitem item "uid");
  name ← lift (py_getitem item "name");
  sku ← lift (py_getitem item "sku");
  final_value ← lift (fp ← py_getitem price_info "final_price"; py_getitem fp "value");
  final_currency ← lift (fp ← py_getitem price_info "final_price"; py_getitem fp "currency");
  final_price ← lift (Price_init final_value final_currency);
  regular_value ← lift (rp ← py_getitem price_info "regular_price"; py_getitem rp "value");
  regular_currency ← lift (rp ← py_getitem price_info "regular_price"; py_getitem rp "currency");
  regular_price ← lift (Price_init regular_value regular_currency);
  let price_range' := PriceRange.init final_price regular_price None in
  stock_status ← lift (py_getitem item "stock_status");
  url_key ← lift (py_getitem item "url_key");
  small_image_url ← lift (si ← py_get item "small_image" (JDict []); py_get si "url" JNull);
  cats ← lift (cs ← py_get item "categories" (JList []); py_iter cs);
  categories ← lift (mapM (fun cat =>
                             u ← py_get cat "uid" JNull;
                             n ← py_getitem cat "name";
                             Category_init u n) cats);
  rating_summary ← lift (py_get item "rating_summary" JNull);
  now ← time_time;
  lift (Product_init id uid name sku price_range' stock_status url_key
                     small_image_url categories rating_summary platform now).

(** The query variables of a search. *)
Definition search_variables (search_term : string) (page page_size : Z) : json :=
  JDict [ ("currentPage", JInt page);
          ("pageSize", JInt page_size);
          ("inputText", JStr search_term) ].

(** [sort_by] is accepted and, like in the source, not used. *)
Definition search_products (search_term platform : string)
    (page page_size : Z) (sort_by : string) : M (option SearchResult.t) :=
  let vars := search_variables search_term page page_size in
  result ← _execute_query platform PRODUCT_SEARCH_QUERY vars "ProductSearch";
  match result with
  | None => mret None
  | Some result' =>
      if negb (py_truthy result') then mret None
      else
        has_data ← lift (py_contains "data" result');
        if negb has_data then mret None
        else
          has_products ← lift (d ← py_getitem result' "data"; py_contains "products" d);
          if negb has_products then mret None
          else
            products_data ← lift (d ← py_getitem result' "data"; py_getitem d "products");
            items ← lift (its ← py_getitem products_data "items"; py_iter its);
            products ← mapM (fun item => _parse_product item platform) items;
            total_count ← lift (py_getitem products_data "total_count");
            total_pages ← lift (pi ← py_getitem products_data "page_info";
                                py_getitem pi "total_pages");
            r ← lift (SearchResult_init products total_count total_pages page platform);
            mret (Some r)
  end.

(** [{p.sku: p for p in products}]: a later product replaces an earlier
    one with the same sku. *)
Definition by_sku (products : list Product.t) : gmap string Product.t :=
  foldl (fun m p => <[Product.sku p := p]> m) ∅ products.

Definition compare_one (b2b_by_sku : gmap string Product.t)
    (b2c_product : Product.t) : option PriceComparison.t :=
  match b2b_by_sku !! Product.sku b2c_product with
  | None => None
  | Some b2b_product =>
      let difference := (Product.price b2c_product - Product.price b2b_product)%Q in
      let savings_pct :=
        if Qlt_bool 0 (Product.price b2c_product)
        then (difference / Product.price b2c_product * 100)%Q
        else 0%Q in
      Some {| PriceComparison.product_id := Product.id b2c_product;
              PriceComparison.sku := Product.sku b2c_product;
              PriceComparison.name := Product.name b2c_product;
              PriceComparison.b2c_price := Product.price b2c_product;
              PriceComparison.b2b_price := Product.price b2b_product;
              PriceComparison.difference := difference;
              PriceComparison.savings_percentage := savings_pct;
              PriceComparison.b2c_url := Product.full_url b2c_product;
              PriceComparison.b2b_url := Product.full_url b2b_product |}
  end.

(** The part of [compare_prices] that follows the two searches, up to
    and including the final stable sort by descending savings. *)
Definition compare_results (b2c_result b2b_result : option SearchResult.t)
    : list PriceComparison.t :=
  match b2c_result, b2b_result with
  | Some b2c_result', Some b2b_result' =>
      let b2b_by_sku := by_sku (SearchResult.products b2b_result') in
      let comparisons :=
        omap (compare_one b2b_by_sku) (SearchResult.products b2c_result') in
      sort_by_savings comparisons
  | _, _ => []
  end.

Definition compare_prices (search_term : string) (max_results : Z)
    : M (list PriceComparison.t) :=
  b2c_result ← search_products search_term "b2c" 1 max_results "relevance";
  b2b_result ← search_products search_term "b2b" 1 max_results "relevance";
  mret (compare_results b2c_result b2b_result).
End Client.

(** ** Observations on a run *)

(** What a call added to the log. *)
Definition new_events (before after : State) : list Event :=
  drop (length (log before)) (log after).

(** The times at which requests were issued. *)
Fixpoint sent_times (l : list Event) : list Q :=
  match l with
  | [] => []
  | Sent t _ :: l' => t :: sent_times l'
  | Slept _ :: l' => sent_times l'
  end.

(** The methods of the requests, in the order in which they were sent. *)
Fixpoint sent_methods (l : list Event) : list Method :=
  match l with
  | [] => []
  | Sent _ r :: l' => method r :: sent_methods l'
  | Slept _ :: l' => sent_methods l'
  end.

(** The durations of the sleeps. *)
Fixpoint sleeps (l : list Event) : list Q :=
  match l with
  | [] => []
  | Slept d :: l' => d :: sleeps l'
  | Sent _ _ :: l' => sleeps l'
  end.

(** The physical attempts of the executor are the GET requests. *)
Definition is_get (r : Request) : bool :=
  match method r with GET => true | POST => false end.

Fixpoint gets_of (l : list Event) : list Request :=
  match l with
  | [] => []
  | Sent _ r :: l' => if is_get r then r :: gets_of l' else gets_of l'
  | Slept _ :: l' => gets_of l'
  end.

Definition attempts_made (l : list Event) : nat := length (gets_of l).

(** A GET of the executor for a given operation. *)
Definition is_query (endpoint query_text op_name : string) (vars : json)
    (r : Request) : Prop :=
  url r = endpoint ∧ query r = query_text
  ∧ operation_name r = Some op_name ∧ variables r = Some vars.

(** [respects R m]: every run of [m] takes a state to an [R]-related one,
    whether it returns or raises. *)
Definition respects (R : relation State) {A : Type} (m : M A) : Prop :=
  ∀ s, R s (snd (m s)).

(** What a step of the client that is not an attempt of the executor
    leaves alone: the watermark and the retry budget. It adds no attempt
    to the log, which only grows at its end. *)
Definition frame (s s' : State) : Prop :=
  _last_request_time s' = _last_request_time s
  ∧ MMConfig.retry_attempts (config s') = MMConfig.retry_attempts (config s)
  ∧ ∃ l, log s' = log s ++ l ∧ gets_of l = [].

(** A run that leaves the watermark alone and adds at most [k] attempts
    to the log, all of them satisfying [P]. *)
Definition within (P : Request → Prop) (k : nat) (s s' : State) : Prop :=
  _last_request_time s' = _last_request_time s
  ∧ ∃ l, log s' = log s ++ l ∧ (attempts_made l <= k)%nat ∧ Forall P (gets_of l).

Abbreviation keeps := (respects frame).
Abbreviation reads := (respects eq).
Abbreviation bounded P k := (respects (within P k)).

(** ** A concrete runtime and concrete backends, for running the model *)

Definition lower_ascii (c : ascii) : ascii :=
  let n := nat_of_ascii c in
  if (65 <=? n)%nat && (n <=? 90)%nat then ascii_of_nat (n + 32) else c.

Fixpoint lower_string (s : string) : string :=
  match s with
  | EmptyString => EmptyString
  | String c s' => String (lower_ascii c) (lower_string s')
  end.

Fixpoint join (sep : string) (l : list string) : string :=
  match l with
  | [] => ""
  | [x] => x
  | x :: l' => x ++ sep ++ join sep l'
  end.

(** [repr] of a parsed value, exact on values built from [None], booleans,
    integers and printable ASCII strings free of quotes and backslashes;
    a float is shown as the quotient that represents it. *)
Fixpoint simple_repr (v : json) : string :=
  match v with
  | JNull => "None"
  | JBool true => "True"
  | JBool false => "False"
  | JInt z => pretty z
  | JFloat q => (pretty (Qnum q) ++ "/" ++ pretty (Zpos (Qden q)))%string
  | JStr s => ("'" ++ s ++ "'")%string
  | JList l => ("[" ++ join ", " (map simple_repr l) ++ "]")%string
  | JDict kvs =>
      ("{" ++ join ", " (map (fun kv : string * json =>
                                let '(k, x) := kv in
                                ("'" ++ k ++ "': " ++ simple_repr x)%string) kvs)
           ++ "}")%string
  end.

Definition is_digit (c : ascii) : bool :=
  (48 <=? nat_of_ascii c)%nat && (nat_of_ascii c <=? 57)%nat.

(** The number written by a run of decimal digits with at most one
    decimal point: [num # den] is the value read so far, [digits] tells
    whether a digit was seen and [point] whether the point was. *)
Fixpoint decimal_from (num : Z) (den : positive) (digits point : bool) (s : string)
  : option Q :=
  match s with
  | EmptyString => if digits then Some (num # den) else None
  | String c s' =>
      if is_digit c
      then decimal_from (10 * num + Z.of_nat (nat_of_ascii c - 48))
                        (if point then 10 * den else den) true point s'
      else if Ascii.eqb c "." && negb point
           then decimal_from num den digits true s'
           else None
  end.

(** A numeric string in plain decimal notation: an optional sign, digits,
    and, when [fraction] is allowed, a decimal point among them. *)
Definition decimal (fraction : bool) (s : string) : option Q :=
  match s with
  | String "-" s' => Qopp <$> decimal_from 0 1 false (negb fraction) s'
  | String "+" s' => decimal_from 0 1 false (negb fraction) s'
  | _ => decimal_from 0 1 false (negb fraction) s
  end.

(** pydantic's coercions to [int] and [float] in its default mode, on the
    inputs that this runtime covers: numbers, booleans (as 0 and 1) and
    numeric strings in plain decimal notation; a float is taken for an
    [int] when it has no fractional part. Other spellings of a number in a
    string (blanks, underscores, exponents, infinities) are not covered and
    count as invalid here; floats being exact rationals, an integer is taken
    for a [float] without rounding. *)
Definition simple_as_int (v : json) : option Z :=
  match v with
  | JInt z => Some z
  | JBool b => Some (if b then 1 else 0)%Z
  | JFloat q => if (Zpos (Qden (Qred q)) =? 1)%Z then Some (Qnum (Qred q)) else None
  | JStr s => Qnum <$> decimal false s
  | _ => None
  end.

Definition simple_as_float (v : json) : option Q :=
  match v with
  | JInt z => Some (inject_Z z)
  | JBool b => Some (if b then 1 else 0)%Q
  | JFloat q => Some q
  | JStr s => decimal true s
  | _ => None
  end.

Definition simple_as_str (v : json) : option string :=
  match v with
  | JStr s => Some s
  | _ => None
  end.

Definition simple_runtime : PyRuntime :=
  {| py_repr := simple_repr; str_lower := lower_string;
     as_int := simple_as_int; as_float := simple_as_float;
     as_str := simple_as_str |}.

Definition is_sent (e : Event) : bool :=
  match e with Sent _ _ => true | Slept _ => false end.

Definition has_header (key : string) (r : Request) : bool :=
  existsb (fun kv => String.eqb key (fst kv)) (headers r).

Definition reply_json (d : json) : Reply := {| outcome := Body d; latency := (1 # 10)%Q |}.
Definition reply_error : Reply := {| outcome := RequestException; latency := (1 # 10)%Q |}.

Definition item_json (id : Z) (sku nm : string) (final regular : Z) : json :=
  JDict [ ("id", JInt id); ("uid", JStr sku); ("name", JStr nm); ("sku", JStr sku);
          ("price_range",
            JDict [("maximum_price",
                     JDict [("final_price", JDict [("currency", JStr "VND"); ("value", JInt final)]);
                            ("regular_price", JDict [("currency", JStr "VND"); ("value", JInt regular)])])]);
          ("small_image", JDict [("url", JStr "https://img/x.jpg")]);
          ("stock_status", JStr "IN_STOCK");
          ("url_key", JStr sku);
          ("categories", JList [JDict [("uid", JStr "c1"); ("name", JStr "Food")]]) ].

Definition products_json (items : list json) (total pages : Z) : json :=
  JDict [("data", JDict [("products",
           JDict [("items", JList items); ("total_count", JInt total);
                  ("page_info", JDict [("total_pages", JInt pages)])])])].

(** Every request ends in a [RequestException]. *)
Definition backend_down : Backend := fun _ _ => reply_error.

(** The first request fails at the network level, later ones are answered. *)
Definition backend_flaky : Backend := fun history _ =>
  if existsb is_sent history then reply_json (products_json [] 0 0) else reply_error.

(** A business backend that rejects queries without a bearer token with an
    authorization error, hands out a token on login and answers queries
    that carry one. *)
Definition backend_auth : Backend := fun _ r =>
  match method r with
  | POST =>
      reply_json (JDict [("data", JDict [("generateCustomerToken",
                                           JDict [("token", JStr "t0k3n")])])])
  | GET =>
      if has_header "Authorization" r
      then reply_json (products_json [item_json 1 "SKU1" "Gao ST25" 90000 100000] 1 1)
      else reply_json (JDict [("errors",
             JList [JDict [("message", JStr "The current customer is not authorized.");
                           ("extensions", JDict [("category", JStr "graphql-authorization")])]])])
  end.

(** A business backend whose tokens are of no use: every login is handed
    a token, and every query is rejected with an authorization error. *)
Definition backend_expired : Backend := fun _ r =>
  match method r with
  | POST =>
      reply_json (JDict [("data", JDict [("generateCustomerToken",
                                           JDict [("token", JStr "t0k3n")])])])
  | GET =>
      reply_json (JDict [("errors",
             JList [JDict [("message", JStr "The current customer is not authorized.");
                           ("extensions", JDict [("category", JStr "graphql-authorization")])]])])
  end.

(** The business backend of [backend_auth] behind a network that drops
    the first request. *)
Definition backend_flaky_auth : Backend := fun history r =>
  if existsb is_sent history then backend_auth history r else reply_error.

(** The products payload has no [items] member. *)
Definition backend_no_items : Backend := fun _ _ =>
  reply_json (JDict [("data", JDict [("products", JDict [("total_count", JInt 0)])])]).

(** One item lacks its [price_range]. *)
Definition backend_bad_item : Backend := fun _ _ =>
  reply_json (products_json [JDict [("id", JInt 7); ("name", JStr "Sua"); ("sku", JStr "SKU7")]] 1 1).

(** The consumer platform is unreachable, and the business platform
    answers with an item that lacks its [price_range]. *)
Definition backend_down_and_bad_item : Backend := fun history r =>
  if String.eqb (url r) "https://online.mmvietnam.com/graphql"
  then backend_down history r
  else backend_bad_item history r.

(** Two catalogues that share two of their three products. *)
Definition backend_shop : Backend := fun _ r =>
  if String.eqb (url r) "https://online.mmvietnam.com/graphql"
  then reply_json (products_json [ item_json 1 "SKU1" "Gao ST25" 100000 100000;
                                   item_json 2 "SKU2" "Sua tuoi" 40000 45000;
                                   item_json 3 "SKU3" "Ca phe" 80000 80000 ] 3 1)
  else reply_json (products_json [ item_json 11 "SKU3" "Ca phe" 60000 80000;
                                   item_json 12 "SKU4" "Duong" 20000 20000;
                                   item_json 13 "SKU1" "Gao ST25" 90000 100000 ] 3 1).

(** A client created at time 100 from the default configuration, with
    credentials in the environment. *)
Definition client0 : State :=
  MMAPIClient_init (MMConfig.from_env (Some "buyer@example.com") (Some "secret") JNull) 100.

(** [config.retry_attempts = n] *)
Definition with_retry_attempts (n : Z) (s : State) : State :=
  set_config {| MMConfig.b2c := MMConfig.b2c (config s);
                MMConfig.b2b := MMConfig.b2b (config s);
                MMConfig.b2b_auth := MMConfig.b2b_auth (config s);
                MMConfig.timeout := MMConfig.timeout (config s);
                MMConfig.retry_attempts := n;
                MMConfig.rate_limit_delay := MMConfig.rate_limit_delay (config s);
                MMConfig.user_agent := MMConfig.user_agent (config s) |} s.

(** The same client, configured for a single attempt. *)
Definition client1 : State := with_retry_attempts 1 client0.

(** The same client, configured for two attempts. *)
Definition client2 : State := with_retry_attempts 2 client0.

(** ** Shapes of responses that the statements below talk about *)

(** A response of the business backend that carries an [errors] member of
    which some entry mentions authorization. *)
Definition authorization_error `{PyRuntime} (data : json) : Prop :=
  py_contains "errors" data = Ok true ∧
  ∃ errors errs,
    py_getitem data "errors" = Ok errors ∧
    py_iter errors = Ok errs ∧
    existsb mentions_authorization errs = true.

(** The iterations of the retry loop that a call of the executor on the
    business platform comes to. [iteration backend q vars op s n attempt
    hdrs si] says that the call made in state [s] enters the iteration
    numbered [attempt] in state [si], with the headers [hdrs] and with [n]
    iterations of its budget left, this one included. The first iteration
    follows the rate limiter; a later one follows either of the two
    [continue] statements of the loop: after a network failure that is
    not the last attempt and its back-off sleep, or after an authorization
    error and a login that returned true. *)
Inductive iteration `{PyRuntime} (backend : Backend)
    (query_text : string) (vars : json) (op_name : string) (s : State)
  : nat → Z → list (string * string) → State → Prop :=
| iteration_first :
    iteration backend query_text vars op_name s
      (Z.to_nat (MMConfig.retry_attempts (config s))) 0
      (b2b_headers (config (snd (_rate_limit s))) (b2b_token (snd (_rate_limit s))))
      (snd (_rate_limit s))
| iteration_after_failure (n : nat) (attempt : Z) (hdrs : list (string * string))
    (si : State) :
    let req := query_request (PlatformConfig.endpoint (MMConfig.b2b (config s)))
                 query_text op_name vars hdrs (config si) in
    let s1 := advance (latency (backend (log si) req)) (Sent (clock si) req) si in
    iteration backend query_text vars op_name s (S n) attempt hdrs si →
    outcome (backend (log si) req) = RequestException →
    (attempt <? MMConfig.retry_attempts (config si) - 1)%Z = true →
    iteration backend query_text vars op_name s n (attempt + 1) hdrs
      (advance (inject_Z (2 ^ attempt)) (Slept (inject_Z (2 ^ attempt))) s1)
| iteration_after_login (n : nat) (attempt : Z) (hdrs : list (string * string))
    (si s2 : State) (e : json) :
    let req := query_request (PlatformConfig.endpoint (MMConfig.b2b (config s)))
                 query_text op_name vars hdrs (config si) in
    let s1 := advance (latency (backend (log si) req)) (Sent (clock si) req) si in
    iteration backend query_text vars op_name s (S n) attempt hdrs si →
    outcome (backend (log si) req) = Body e →
    authorization_error e →
    authenticate_b2b backend None None s1 = (Ok true, s2) →
    iteration backend query_text vars op_name s n (attempt + 1)
      (b2b_headers (config s2) (b2b_token s2)) s2.

(** What [search_products] treats as "nothing there": no response at all, a
    response object without [data], or a [data] object without [products]. *)
Inductive absent_products : option json -> Prop :=
| absent_failed : absent_products None
| absent_no_data kvs :
    assoc "data" kvs = None -> absent_products (Some (JDict kvs))
| absent_no_products kvs d :
    assoc "data" kvs = Some (JDict d) -> assoc "products" d = None ->
    absent_products (Some (JDict kvs)).

(** The [products] payload of a response object, when there is one. *)
Definition products_payload (result : option json) : option json :=
  match result with
  | Some (JDict kvs) =>
      match assoc "data" kvs with
      | Some (JDict d) => assoc "products" d
      | _ => None
      end
  | _ => None
  end.

(** * The rest of the package *)

(** ** config.py: the setters of [MMConfig] *)

Module Config.
Definition set_b2b_credentials (self : MMConfig.t) (username password : string)
  : MMConfig.t :=
  {| MMConfig.b2c := MMConfig.b2c self; MMConfig.b2b := MMConfig.b2b self;
     MMConfig.b2b_auth :=
       {| AuthConfig.username := Some username;
          AuthConfig.password := Some password;
          AuthConfig.customer_token :=
            AuthConfig.customer_token (MMConfig.b2b_auth self) |};
     MMConfig.timeout := MMConfig.timeout self;
     MMConfig.retry_attempts := MMConfig.retry_attempts self;
     MMConfig.rate_limit_delay := MMConfig.rate_limit_delay self;
     MMConfig.user_agent := MMConfig.user_agent self |}.

Definition set_b2b_token (self : MMConfig.t) (token : string) : MMConfig.t :=
  MMConfig.set_customer_token self (JStr token).
End Config.

(** ** auth.py: verification and logout *)

Definition VERIFY_TOKEN_QUERY : string :=
  "
        query {
          customer {
            email
            firstname
            lastname
          }
        }
        ".

Definition REVOKE_TOKEN_MUTATION : string :=
  "
        mutation {
          revokeCustomerToken {
            result
          }
        }
        ".

Section AuthClient.
Context `{PyRuntime} (backend : Backend).

Definition verify_b2b_token : M bool :=
  tok ← gets b2b_token;
  if negb (py_truthy tok) then mret false
  else
    hdrs ← get_b2b_headers;
    cfg ← gets config;
    r ← http backend {| method := POST;
                        url := PlatformConfig.endpoint (MMConfig.b2b cfg);
                        query := VERIFY_TOKEN_QUERY;
                        operation_name := None;
                        variables := None;
                        headers := hdrs;
                        req_timeout := MMConfig.timeout cfg |};
    match r with
    | RequestException => mret false
    | Body data =>
        has_errors ← lift (py_contains "errors" data);
        if has_errors : bool then mret false
        else
          has_data ← lift (py_contains "data" data);
          has_customer ←
            (if has_data : bool
             then lift (d ← py_getitem data "data"; py_contains "customer" d)
             else mret false);
          if has_customer : bool then
            (* the log line formats [data['data']['customer'].get('email')] *)
            _ ← lift (d ← py_getitem data "data";
                      c ← py_getitem d "customer";
                      py_get c "email" JNull);
            mret true
          else mret false
    end.

Definition logout_b2b : M bool :=
  tok ← gets b2b_token;
  if negb (py_truthy tok) then mret true
  else
    hdrs ← get_b2b_headers;
    cfg ← gets config;
    r ← http backend {| method := POST;
                        url := PlatformConfig.endpoint (MMConfig.b2b cfg);
                        query := REVOKE_TOKEN_MUTATION;
                        operation_name := Some "revokeCustomerToken";
                        variables := None;
                        headers := hdrs;
                        req_timeout := MMConfig.timeout cfg |};
    match r with
    | RequestException => mret false
    | Body data =>
        has_data ← lift (py_contains "data" data);
        revoked ←
          (if has_data : bool
           then lift (d ← py_getitem data "data";
                      rv ← py_get d "revokeCustomerToken" (JDict []);
                      result ← py_get rv "result" JNull;
                      mret (py_truthy result))
           else mret false);
        if revoked : bool then
          modify (set_b2b_token JNull);;
          modify (fun s => set_config (MMConfig.set_customer_token (config s) JNull) s);;
          mret true
        else mret false
    end.
End AuthClient.

(** ** api_client.py: search over all pages *)

Section AllPages.
Context `{PyRuntime} (backend : Backend).

(** [if max_pages and page >= max_pages]: a cap of [None] or of 0 is no cap. *)
Definition cap_reached (max_pages : option Z) (page : Z) : bool :=
  match max_pages with
  | Some m => negb (m =? 0)%Z && (m <=? page)%Z
  | None => false
  end.

(** The [while True] loop of [search_all_pages], entered with the page
    to fetch and the products gathered so far. The loop of the source has
    no bound of its own; [fuel] bounds the iterations of the model, and
    [None] is returned when it runs out. *)
Fixpoint search_all_pages_from (fuel : nat) (search_term platform : string)
    (max_pages : option Z) (page : Z) (all_products : list Product.t)
    : M (option (list Product.t)) :=
  match fuel with
  | O => mret None
  | S fuel' =>
      result ← search_products backend search_term platform page 50 "relevance";
      match result with
      | None => mret (Some all_products)
      | Some result' =>
          match SearchResult.products result' with
          | [] => mret (Some all_products)
          | _ :: _ =>
              let all_products' := all_products ++ SearchResult.products result' in
              if cap_reached max_pages page then mret (Some all_products')
              else if (SearchResult.total_pages result' <=? page)%Z
                   then mret (Some all_products')
                   else search_all_pages_from fuel' search_term platform max_pages
                          (page + 1)%Z all_products'
          end
      end
  end.

Definition search_all_pages (fuel : nat) (search_term platform : string)
    (max_pages : option Z) : M (option (list Product.t)) :=
  search_all_pages_from fuel search_term platform max_pages 1%Z [].
End AllPages.

(** ** stores.py: listing the stores *)



Section StoreListing.
Context `{PyRuntime} (backend : Backend).

(** [list(self.KNOWN_STORES.values())], in the order of the dictionary. *)
Definition known_stores_values : list Store.t :=
  map snd StoreManager.KNOWN_STORES_items.




(** [store.region and store.region.lower() == region.lower()] *)
Definition in_region (region : string) (store : Store.t) : bool :=
  match Store.region store with
  | Some r => negb (String.eqb r "") && String.eqb (str_lower r) (str_lower region)
  | None => false
  end.

Definition get_stores_by_region (region : string) : list Store.t :=
  List.filter (in_region region) known_stores_values.
End StoreListing.

(** A decimal code, as the directory uses them. *)
Fixpoint all_digits (s : string) : bool :=
  match s with
  | EmptyString => true
  | String c s' => is_digit c && all_digits s'
  end.

(** ** Further observations on a run *)

(** The requests on a log, in the order in which they were sent. *)
Fixpoint sent_requests (l : list Event) : list Request :=
  match l with
  | [] => []
  | Sent _ r :: l' => r :: sent_requests l'
  | Slept _ :: l' => sent_requests l'
  end.

(** Whether a header dictionary has an [Authorization] entry. *)
Definition carries_bearer (hdrs : list (string * string)) : bool :=
  existsb (fun kv => String.eqb "Authorization" (fst kv)) hdrs.

(** A client without credentials in its configuration. *)
Definition client_anonymous : State :=
  MMAPIClient_init (MMConfig.from_env None None JNull) 100.

(** A client that was handed a token through the environment. *)
Definition client_with_token : State :=
  MMAPIClient_init (MMConfig.from_env None None (JStr "t0k3n")) 100.

(** The retry budget of the configuration is the same in both states. *)
Definition same_budget (s s' : State) : Prop :=
  MMConfig.retry_attempts (config s') = MMConfig.retry_attempts (config s).

(** A backend on which both platforms list the same article at the same
    price. *)
Definition backend_same_price : Backend := fun _ _ =>
  reply_json (products_json [ item_json 1 "SKU1" "Gao ST25" 100000 100000 ] 1 1).

(** ** server.py: the summary of [handle_compare_prices] *)

Module Server.
(** [[c for c in comparisons if c.difference > 0]] *)
Definition cheaper_on_b2b (comparisons : list PriceComparison.t)
  : list PriceComparison.t :=
  List.filter (fun c => Qlt_bool 0 (PriceComparison.difference c)) comparisons.

(** Python's [sum]: from 0, left to right. *)
Definition sum (l : list Q) : Q := foldl Qplus 0%Q l.

(** The value assigned to [avg_savings]:
    [sum(c.savings_percentage for c in comparisons if c.difference > 0)
     / len([c for c in comparisons if c.difference > 0]) if comparisons else 0].
    [None] stands for the [ZeroDivisionError] of a division by a length
    of 0. *)
Definition avg_savings (comparisons : list PriceComparison.t) : option Q :=
  match comparisons with
  | [] => Some 0%Q
  | _ :: _ =>
      let cheaper := cheaper_on_b2b comparisons in
      if (length cheaper =? 0)%nat then None
      else Some (sum (PriceComparison.savings_percentage <$> cheaper)
                 / inject_Z (Z.of_nat (length cheaper)))%Q
  end.
End Server.

(** * Properties *)

(** ** models.py *)

Lemma Qlt_bool_iff (x y : Q) : Qlt_bool x y = true ↔ (x < y)%Q.
Proof.
  unfold Qlt_bool. rewrite negb_true_iff. split.
  - intros Hb. apply Qnot_le_lt. intros Hle.
    apply Qle_bool_iff in Hle. congruence.
  - intros Hlt. destruct (Qle_bool y x) eqn:E; [|reflexivity].
    apply Qle_bool_iff in E. exfalso. exact (Qlt_not_le _ _ Hlt E).
Qed.

Lemma Qlt_bool_false_iff (x y : Q) : Qlt_bool x y = false ↔ (y <= x)%Q.
Proof.
  unfold Qlt_bool. rewrite negb_false_iff. apply Qle_bool_iff.
Qed.

(** C5. For a price range built from a regular and a final price, the
    discount is regular minus final, [has_discount] holds exactly when the
    discount is positive, and [discount_percentage] is 0 when the regular
    price is at most 0 and discount / regular * 100 otherwise. *)
Theorem PriceRange_derived_fields (final regular : Price.t) :
  let pr := PriceRange.init final regular None in
  let discount := PriceRange.discount_amount pr in
  discount = (Price.value regular - Price.value final)%Q
  ∧ (PriceRange.has_discount pr = true ↔ (0 < discount)%Q)
  ∧ ((Price.value regular <= 0)%Q → PriceRange.discount_percentage pr = 0%Q)
  ∧ (¬ (Price.value regular <= 0)%Q →
     PriceRange.discount_percentage pr = (discount / Price.value regular * 100)%Q).
Proof.
  cbn zeta. repeat split.
  - unfold PriceRange.has_discount. apply Qlt_bool_iff.
  - unfold PriceRange.has_discount. apply Qlt_bool_iff.
  - intros Hle. unfold PriceRange.discount_percentage. cbn.
    apply Qlt_bool_false_iff in Hle. rewrite Hle. reflexivity.
  - intros Hpos. unfold PriceRange.discount_percentage. cbn.
    destruct (Qlt_bool 0 (Price.value regular)) eqn:E; [reflexivity|].
    apply Qlt_bool_false_iff in E. contradiction.
Qed.

(** ** stores.py *)

(** The store with code 10010, as the directory holds it. *)
Lemma known_store_10010 :
  StoreManager.KNOWN_STORES !! "10010"
  = Some {| Store.code := "10010"; Store.name := "MM Mega Market An Phú";
            Store.region := Some "South" |}.
Proof. vm_compute. reflexivity. Qed.

(** C7, as the code has it. The known prefixes and the suffix are removed
    before the lookup, so ["b2c_10010_vi"], ["mm_10010_vi"] and ["10010"]
    resolve to the same store, the one with code 10010, and likewise for
    every code of the directory. Surrounding blanks are not removed:
    [" b2c_10010_vi "] does not resolve. *)
Theorem get_store_strips_prefix_and_suffix :
  StoreManager.get_store "b2c_10010_vi" = StoreManager.KNOWN_STORES !! "10010"
  ∧ StoreManager.get_store "mm_10010_vi" = StoreManager.KNOWN_STORES !! "10010"
  ∧ StoreManager.get_store "10010" = StoreManager.KNOWN_STORES !! "10010"
  ∧ (Store.code <$> StoreManager.KNOWN_STORES !! "10010") = Some "10010"
  ∧ (∀ k store,
        StoreManager.KNOWN_STORES !! k = Some store →
        StoreManager.get_store ("b2c_" ++ k ++ "_vi") = Some store
        ∧ StoreManager.get_store ("mm_" ++ k ++ "_vi") = Some store
        ∧ StoreManager.get_store k = Some store)
  ∧ Store.numeric_code " b2c_10010_vi " = " 10010 "
  ∧ StoreManager.get_store " b2c_10010_vi " = None.
Proof.
  split; [vm_compute; reflexivity|].
  split; [vm_compute; reflexivity|].
  split; [vm_compute; reflexivity|].
  split; [vm_compute; reflexivity|].
  split; [|split; vm_compute; reflexivity].
  intros k store Hk. unfold StoreManager.KNOWN_STORES in Hk.
  apply elem_of_list_to_map_2 in Hk.
  unfold StoreManager.KNOWN_STORES_items in Hk.
  repeat (apply elem_of_cons in Hk as [Hk | Hk];
          [injection Hk as -> ->; repeat split; vm_compute; reflexivity|]).
  apply elem_of_nil in Hk. contradiction.
Qed.

(** C7, as the claim states it, fails on the blank-padded code: it does not
    resolve to the store that ["10010"] resolves to. *)
Lemma get_store_keeps_blanks :
  StoreManager.get_store " b2c_10010_vi " ≠ StoreManager.get_store "10010".
Proof. vm_compute. discriminate. Qed.

(** C8. A code that does not resolve makes both [set_current_store] and
    [update_config_store] return false and leaves the current store and
    the configuration, the two store identifiers included, as they were. *)
Theorem unknown_store_changes_nothing
    (store_code : string) (self : StoreManager.t) (config : MMConfig.t) :
  StoreManager.get_store store_code = None →
  StoreManager.set_current_store store_code self = (false, self)
  ∧ StoreManager.update_config_store config store_code = (false, config).
Proof.
  intros Hnone.
  unfold StoreManager.set_current_store, StoreManager.update_config_store.
  rewrite Hnone. split; reflexivity.
Qed.

Lemma unknown_store_changes_nothing_99999 :
  StoreManager.get_store "99999" = None
  ∧ StoreManager.set_current_store "99999" (StoreManager.init false)
    = (false, StoreManager.init false)
  ∧ StoreManager.update_config_store (MMConfig.from_env None None JNull) "99999"
    = (false, MMConfig.from_env None None JNull).
Proof.
  split; [vm_compute; reflexivity|].
  apply (unknown_store_changes_nothing "99999"). vm_compute. reflexivity.
Defined.

(** Every store that [get_store] returns is an entry of the directory. *)
Lemma get_store_known (store_code : string) (store : Store.t) :
  StoreManager.get_store store_code = Some store →
  ∃ k, StoreManager.KNOWN_STORES !! k = Some store.
Proof. intros Hget. eexists. exact Hget. Qed.

Lemma set_current_store_present (store_code : string) (self : StoreManager.t) :
  (∃ store k, StoreManager.current_store self = Some store
              ∧ StoreManager.KNOWN_STORES !! k = Some store) →
  ∃ store k,
    StoreManager.current_store (snd (StoreManager.set_current_store store_code self))
    = Some store
    ∧ StoreManager.KNOWN_STORES !! k = Some store.
Proof.
  intros Hinv. unfold StoreManager.set_current_store.
  destruct (StoreManager.get_store store_code) as [store|] eqn:Hget; cbn.
  - destruct (get_store_known _ _ Hget) as [k Hk]. eauto.
  - exact Hinv.
Qed.

(** C10. In every reachable state of the store directory the current store
    is present, and it is an entry of the directory: construction selects
    the known store 10010 and [set_current_store] only ever overwrites the
    selection with a store that resolved. *)
Theorem current_store_always_present (st : StoreManager.t * MMConfig.t) :
  StoreManager.reachable st →
  ∃ store k,
    StoreManager.get_current_store (fst st) = Some store
    ∧ StoreManager.KNOWN_STORES !! k = Some store.
Proof.
  unfold StoreManager.get_current_store.
  induction 1 as [client config | c st Hreach IH].
  - cbn. exists {| Store.code := "10010"; Store.name := "MM Mega Market An Phú";
                   Store.region := Some "South" |}, "10010".
    split; apply known_store_10010.
  - destruct c; cbn; try exact IH.
    apply set_current_store_present. exact IH.
Qed.

Lemma current_store_always_present_after_calls :
  ∃ store k,
    StoreManager.get_current_store
      (fst (StoreManager.run_call (StoreManager.CallSetCurrentStore "99999")
             (StoreManager.run_call (StoreManager.CallSetCurrentStore "mm_10015_vi")
                (StoreManager.init true, MMConfig.from_env None None JNull))))
    = Some store
    ∧ StoreManager.KNOWN_STORES !! k = Some store.
Proof.
  apply current_store_always_present.
  apply StoreManager.reach_call. apply StoreManager.reach_call.
  apply StoreManager.reach_init.
Defined.

(** ** The state monad *)

Ltac munfold :=
  unfold time_time, time_sleep, http in *;
  unfold mbind, M_bind, mret, M_ret, lift, gets, modify in *.

Ltac run_cases :=
  repeat match goal with
         | |- context [match ?x with _ => _ end] =>
             lazymatch x with
             | context [match _ with _ => _ end] => fail
             | _ => destruct x eqn:?
             end
         end.

Lemma bind_ok {A B : Type} (m : M A) (f : A → M B) (s s' : State) (a : A) :
  m s = (Ok a, s') → (m ≫= f) s = f a s'.
Proof. intros Hm. unfold mbind, M_bind. rewrite Hm. reflexivity. Qed.

Lemma gets_of_app (l1 l2 : list Event) : gets_of (l1 ++ l2) = gets_of l1 ++ gets_of l2.
Proof.
  induction l1 as [|[d|t r] l1 IH]; cbn; [reflexivity | exact IH |].
  destruct (is_get r); cbn; rewrite IH; reflexivity.
Qed.

Lemma attempts_made_app (l1 l2 : list Event) :
  attempts_made (l1 ++ l2) = attempts_made l1 + attempts_made l2.
Proof. unfold attempts_made. rewrite gets_of_app. apply length_app. Qed.

Lemma sleeps_app (l1 l2 : list Event) : sleeps (l1 ++ l2) = sleeps l1 ++ sleeps l2.
Proof.
  induction l1 as [|[d|t r] l1 IH]; cbn; [reflexivity | | exact IH].
  rewrite IH. reflexivity.
Qed.

Lemma new_events_app (s s' : State) (l : list Event) :
  log s' = log s ++ l → new_events s s' = l.
Proof. intros Hl. unfold new_events. rewrite Hl. apply drop_app_length. Qed.

(** ** api_client.py: the executor under network failure *)

Section Executor.
Context `{PyRuntime} (backend : Backend).
Variables (platform endpoint query_text op_name : string) (vars : json).

Lemma rate_limit_run (s : State) :
  ∃ s0, _rate_limit s = (Ok tt, s0)
        ∧ _last_request_time s0 = clock s0
        ∧ config s0 = config s
        ∧ b2b_token s0 = b2b_token s
        ∧ clock s0 =
            (if Qlt_bool (clock s - _last_request_time s)
                         (MMConfig.rate_limit_delay (config s))
             then clock s + (MMConfig.rate_limit_delay (config s)
                             - (clock s - _last_request_time s))
             else clock s)%Q
        ∧ ∃ l, log s0 = log s ++ l ∧ gets_of l = [].
Proof.
  unfold _rate_limit. munfold.
  destruct (Qlt_bool (clock s - _last_request_time s)
                     (MMConfig.rate_limit_delay (config s))); cbn; eexists;
    (split; [reflexivity|]); cbn; do 4 (split; [reflexivity|]).
  - exists [Slept (MMConfig.rate_limit_delay (config s)
                   - (clock s - _last_request_time s))%Q].
    split; reflexivity.
  - exists []. split; [symmetry; apply app_nil_r | reflexivity].
Qed.


End Executor.



(** ** Relations that every run of a computation respects *)

Section Respects.
Context (R : relation State) `{!Reflexive R, !Transitive R}.

Lemma respects_ret {A : Type} (a : A) : respects R (mret a).
Proof. intros s. reflexivity. Qed.

Lemma respects_lift {A : Type} (r : res A) : respects R (lift r).
Proof. intros s. reflexivity. Qed.

Lemma respects_gets {A : Type} (f : State → A) : respects R (gets f).
Proof. intros s. reflexivity. Qed.

Lemma respects_bind {A B : Type} (m : M A) (f : A → M B) :
  respects R m → (∀ a, respects R (f a)) → respects R (m ≫= f).
Proof.
  intros Hm Hf s. unfold mbind, M_bind.
  specialize (Hm s). destruct (m s) as [[a|e] s1]; cbn in *.
  - transitivity s1; [exact Hm | apply Hf].
  - exact Hm.
Qed.

Lemma respects_mapM {A B : Type} (f : A → M B) (l : list A) :
  (∀ a, respects R (f a)) → respects R (mapM f l).
Proof.
  intros Hf. induction l as [|a l IH]; cbn.
  - apply respects_ret.
  - apply respects_bind; [apply Hf | intros b].
    apply respects_bind; [exact IH | intros bs]. apply respects_ret.
Qed.
End Respects.

Ltac respects_step :=
  match goal with
  | |- respects ?R (mret _) => apply (respects_ret R)
  | |- respects ?R (lift _) => apply (respects_lift R)
  | |- respects ?R (gets _) => apply (respects_gets R)
  | |- respects ?R (mapM _ _) => apply (respects_mapM R); intros ?
  | |- respects ?R (_ ≫= _) => apply (respects_bind R); [|intros ?]
  | |- respects _ (if ?b then _ else _) => destruct b
  | |- respects _ (match ?x with _ => _ end) => destruct x
  end.

(** ** api_client.py: what an executor call does to the watermark *)

#[global] Instance frame_refl : Reflexive frame.
Proof.
  intros s. repeat split. exists []. split; [symmetry; apply app_nil_r | reflexivity].
Qed.

#[global] Instance frame_trans : Transitive frame.
Proof.
  intros s1 s2 s3 (Hw1 & Hn1 & l1 & Hl1 & Ha1) (Hw2 & Hn2 & l2 & Hl2 & Ha2).
  split; [congruence|]. split; [congruence|].
  exists (l1 ++ l2). split.
  - rewrite Hl2, Hl1, app_assoc. reflexivity.
  - rewrite gets_of_app, Ha1, Ha2. reflexivity.
Qed.

#[global] Instance within_refl (P : Request → Prop) (k : nat) : Reflexive (within P k).
Proof.
  intros s. split; [reflexivity|]. exists [].
  split; [symmetry; apply app_nil_r|]. split; [cbn; lia | constructor].
Qed.

Lemma frame_within (P : Request → Prop) (k : nat) (s s' : State) :
  frame s s' → within P k s s'.
Proof.
  intros (Hw & _ & l & Hl & Ha). split; [exact Hw|].
  exists l. unfold attempts_made. rewrite Ha.
  split; [exact Hl|]. split; [cbn; lia | constructor].
Qed.

Lemma within_frame_l (P : Request → Prop) (k : nat) (s1 s2 s3 : State) :
  frame s1 s2 → within P k s2 s3 → within P k s1 s3.
Proof.
  intros (Hw1 & _ & l1 & Hl1 & Ha1) (Hw2 & l2 & Hl2 & Ha2 & HP).
  split; [congruence|].
  exists (l1 ++ l2). split; [|split].
  - rewrite Hl2, Hl1, app_assoc. reflexivity.
  - unfold attempts_made in *. rewrite gets_of_app, Ha1. exact Ha2.
  - rewrite gets_of_app, Ha1. exact HP.
Qed.

Lemma keeps_bounded {A : Type} (P : Request → Prop) (k : nat) (m : M A) :
  keeps m → bounded P k m.
Proof. intros Hm s. apply frame_within, Hm. Qed.

Lemma bounded_bind {A B : Type} (P : Request → Prop) (k : nat)
    (m : M A) (f : A → M B) :
  keeps m → (∀ a, bounded P k (f a)) → bounded P k (m ≫= f).
Proof.
  intros Hm Hf s. unfold mbind, M_bind.
  specialize (Hm s). destruct (m s) as [[a|e] s1]; cbn in *.
  - eapply within_frame_l; [exact Hm | apply Hf].
  - apply frame_within. exact Hm.
Qed.

Lemma respects_run {A : Type} (R : relation State) (m : M A) (s : State) :
  respects R m → R s (snd (m s)).
Proof. intros Hm. apply Hm. Qed.

Lemma keeps_set_b2b_token (tok : json) : keeps (modify (set_b2b_token tok)).
Proof.
  intros s. repeat split. exists []. split; [symmetry; apply app_nil_r | reflexivity].
Qed.

Lemma keeps_set_customer_token (tok : json) :
  keeps (modify (fun s => set_config (MMConfig.set_customer_token (config s) tok) s)).
Proof.
  intros s. repeat split. exists []. split; [symmetry; apply app_nil_r | reflexivity].
Qed.

Lemma keeps_sleep (d : Q) : keeps (time_sleep d).
Proof.
  intros s. repeat split. exists [Slept d]. split; reflexivity.
Qed.

Section ExecutorWatermark.
Context `{PyRuntime} (backend : Backend).
Variables (platform endpoint query_text op_name : string) (vars : json).

Lemma keeps_post (r : Request) : method r = POST → keeps (http backend r).
Proof.
  intros Hpost s. repeat split. exists [Sent (clock s) r]. split; [reflexivity|].
  cbn. unfold is_get. rewrite Hpost. reflexivity.
Qed.

(** Logging in leaves the watermark and the retry budget alone and makes
    no attempt of its own. *)
Lemma authenticate_b2b_keeps (username password : option string) :
  keeps (authenticate_b2b backend username password).
Proof.
  unfold authenticate_b2b.
  repeat first [ respects_step | apply keeps_set_b2b_token
               | apply keeps_set_customer_token
               | apply keeps_post; reflexivity ].
Qed.

Lemma get_b2b_headers_run (s : State) :
  get_b2b_headers s = (Ok (b2b_headers (config s) (b2b_token s)), s).
Proof. reflexivity. Qed.

Lemma get_b2b_headers_keeps : keeps get_b2b_headers.
Proof. unfold get_b2b_headers. repeat respects_step. Qed.

(** One round of the loop issues its GET at the current time; from there
    on the run leaves the watermark alone and makes at most the remaining
    number of attempts, each of them a GET for the same operation. *)
Lemma attempt_loop_step (k : nat) (attempt : Z) (hdrs : list (string * string))
    (s : State) :
  let P := is_query endpoint query_text op_name vars in
  (∀ a h, bounded P k (attempt_loop backend k a platform endpoint query_text op_name vars h)) →
  let req := query_request endpoint query_text op_name vars hdrs (config s) in
  let s1 := advance (latency (backend (log s) req)) (Sent (clock s) req) s in
  within P k s1
    (snd (attempt_loop backend (S k) attempt platform endpoint query_text op_name vars hdrs s)).
Proof.
  intros P IH req s1. cbn [attempt_loop].
  unfold gets at 1. unfold mbind at 1, M_bind at 1.
  unfold http at 1. unfold mbind at 1, M_bind at 1. fold req. fold s1.
  destruct (outcome (backend (log s) req)) as [|data];
    apply (respects_run (within P k)).
  - destruct (_ <? _)%Z.
    + apply bounded_bind; [apply keeps_sleep | intros _; apply IH].
    + respects_step.
  - repeat first
      [ apply IH
      | apply bounded_bind;
          [ first [ respects_step
                  | apply authenticate_b2b_keeps
                  | apply get_b2b_headers_keeps ] | intros ? ]
      | respects_step ].
Qed.

Lemma attempt_loop_bounded (k : nat) :
  ∀ attempt hdrs,
    bounded (is_query endpoint query_text op_name vars) k
      (attempt_loop backend k attempt platform endpoint query_text op_name vars hdrs).
Proof.
  induction k as [|k IH]; intros attempt hdrs.
  - cbn. respects_step.
  - intros s.
    pose proof (attempt_loop_step k attempt hdrs s IH) as (Hw & l & Hl & Ha & HP).
    split; [exact Hw|].
    eexists (_ :: l). split; [|split].
    + rewrite Hl. cbn. rewrite <- app_assoc. reflexivity.
    + unfold attempts_made in *. cbn. lia.
    + cbn. constructor; [repeat split | exact HP].
Qed.
End ExecutorWatermark.

Section ExecutorCall.
Context `{PyRuntime} (backend : Backend).
Variables (platform query_text : string) (vars : json) (op_name : string).

(** [_execute_query] is the rate limiter followed by the loop, run with
    the endpoint and the headers of the platform. *)
Lemma execute_query_unfold (s : State) :
  let s0 := snd (_rate_limit s) in
  _execute_query backend platform query_text vars op_name s
  = attempt_loop backend (Z.to_nat (MMConfig.retry_attempts (config s))) 0
      platform
      (if String.eqb platform "b2c"
       then PlatformConfig.endpoint (MMConfig.b2c (config s0))
       else PlatformConfig.endpoint (MMConfig.b2b (config s0)))
      query_text op_name vars
      (if String.eqb platform "b2c"
       then base_headers (PlatformConfig.store_code (MMConfig.b2c (config s0))) (config s0)
       else b2b_headers (config s0) (b2b_token s0))
      s0.
Proof.
  destruct (rate_limit_run s) as (s0 & Hrl & _ & Hcfg & _).
  rewrite Hrl. cbn [snd].
  unfold _execute_query.
  rewrite (bind_ok _ _ _ _ _ Hrl).
  unfold gets at 1. unfold mbind at 1, M_bind at 1.
  rewrite <- Hcfg.
  destruct (String.eqb platform "b2c"); reflexivity.
Qed.
(** What a call of the executor adds to the log: at most [retry_attempts]
    GET requests, all of them for the operation that was asked for. *)
Lemma execute_query_attempts (s : State) :
  ∃ l, log (snd (_execute_query backend platform query_text vars op_name s)) = log s ++ l
       ∧ (attempts_made l <= Z.to_nat (MMConfig.retry_attempts (config s)))%nat
       ∧ Forall (fun r => query r = query_text ∧ operation_name r = Some op_name
                          ∧ variables r = Some vars) (gets_of l).
Proof.
  rewrite execute_query_unfold. cbv zeta.
  destruct (rate_limit_run s) as (s0 & Hrl & _ & _ & _ & _ & l0 & Hl0 & Hg0).
  rewrite Hrl. cbn [snd].
  set (endpoint := if String.eqb platform "b2c" then _ else _).
  set (hdrs := if String.eqb platform "b2c" then _ else _).
  destruct (attempt_loop_bounded backend platform endpoint query_text op_name vars
              (Z.to_nat (MMConfig.retry_attempts (config s))) 0%Z hdrs s0)
    as (_ & l & Hl & Ha & HP).
  exists (l0 ++ l). split; [|split].
  - rewrite Hl, Hl0, app_assoc. reflexivity.
  - unfold attempts_made in *. rewrite gets_of_app, Hg0. exact Ha.
  - rewrite gets_of_app, Hg0. cbn.
    eapply Forall_impl; [exact HP|].
    intros r (_ & Hq & Ho & Hv). auto.
Qed.
End ExecutorCall.

(** C6, as the code has it. A call of the executor sets the watermark once,
    in [_rate_limit] before its first attempt, to the time at which that
    attempt is then issued, whatever the outcome of the call; the attempts
    of the call, of which there are at most [retry_attempts], do not
    touch it again. *)
Theorem execute_query_sets_watermark_once `{PyRuntime} (backend : Backend)
    (platform query_text : string) (vars : json) (op_name : string) (s : State) :
  let s0 := snd (_rate_limit s) in
  let s' := snd (_execute_query backend platform query_text vars op_name s) in
  _last_request_time s' = clock s0
  ∧ clock s0 =
      (if Qlt_bool (clock s - _last_request_time s) (MMConfig.rate_limit_delay (config s))
       then clock s + (MMConfig.rate_limit_delay (config s)
                       - (clock s - _last_request_time s))
       else clock s)%Q
  ∧ (attempts_made (new_events s0 s') <= Z.to_nat (MMConfig.retry_attempts (config s)))%nat
  ∧ ((0 < MMConfig.retry_attempts (config s))%Z →
     head (sent_times (new_events s0 s')) = Some (clock s0)).
Proof.
  intros s0 s'.
  pose proof (execute_query_unfold backend platform query_text vars op_name s) as Hrun.
  cbn zeta in Hrun. fold s0 in Hrun.
  destruct (rate_limit_run s) as (s0' & Hrl & Hwm & _ & _ & Hclock & _).
  assert (s0 = s0') by (subst s0; rewrite Hrl; reflexivity).
  clearbody s0. subst s0'.
  subst s'. rewrite Hrun.
  set (endpoint := if String.eqb platform "b2c" then _ else _).
  set (hdrs := if String.eqb platform "b2c" then _ else _).
  split; [|split; [exact Hclock|]].
  - rewrite <- Hwm.
    apply (attempt_loop_bounded backend platform endpoint query_text op_name vars).
  - split.
    + destruct (attempt_loop_bounded backend platform endpoint query_text op_name vars
                  (Z.to_nat (MMConfig.retry_attempts (config s))) 0%Z hdrs s0)
        as (_ & l & Hl & Ha & _).
      rewrite (new_events_app _ _ _ Hl). exact Ha.
    + intros Hpos.
      destruct (Z.to_nat (MMConfig.retry_attempts (config s))) as [|k] eqn:Hk; [lia|].
      destruct (attempt_loop_step backend platform endpoint query_text op_name vars
                  k 0%Z hdrs s0
                  (attempt_loop_bounded backend platform endpoint query_text op_name vars k))
        as (_ & l & Hl & _).
      cbn [log advance] in Hl. rewrite <- app_assoc in Hl.
      rewrite (new_events_app _ _ _ Hl). reflexivity.
Qed.

(** C6, as the claim states it, fails when an attempt is retried: the
    first request of the call goes out at time 100 and fails, the retry
    goes out at 101.1, and the watermark still reads 100 afterwards. *)
Lemma retry_attempt_leaves_watermark :
  let run := @_execute_query simple_runtime backend_flaky "b2c" PRODUCT_SEARCH_QUERY
               (search_variables "gao" 1 24) "ProductSearch" client0 in
  fst run = Ok (Some (products_json [] 0 0))
  ∧ attempts_made (new_events client0 (snd run)) = 2
  ∧ sent_times (new_events client0 (snd run)) = [100%Q; 101.1%Q]
  ∧ _last_request_time (snd run) = 100%Q
  ∧ (_last_request_time (snd run) < 101.1)%Q.
Proof. vm_compute. repeat split. Qed.

(** ** api_client.py: the catalog client does not look at [sort_by] *)

Section SearchState.
Context `{PyRuntime} (backend : Backend).

(** Mapping an item reads the clock and nothing else. *)
Lemma parse_product_reads (item : json) (platform : string) :
  reads (_parse_product item platform).
Proof. unfold _parse_product, time_time. repeat respects_step. Qed.

(** All effects of a search are those of its executor call. *)
Lemma search_products_state (search_term platform : string) (page page_size : Z)
    (sort_by : string) (s : State) :
  snd (search_products backend search_term platform page page_size sort_by s)
  = snd (_execute_query backend platform PRODUCT_SEARCH_QUERY
           (search_variables search_term page page_size) "ProductSearch" s).
Proof.
  unfold search_products. cbv zeta. unfold mbind at 1, M_bind at 1.
  destruct (_execute_query _ _ _ _ _ s) as [[result|e] s1]; [|reflexivity].
  cbn [snd]. symmetry. apply (respects_run eq).
  repeat first [ apply parse_product_reads | respects_step ].
Qed.
End SearchState.

(** C9. For every term, platform, page and page size, two values of
    [sort_by] give the same run of [search_products]: the same result and
    the same final state of the world, whose log holds the requests that
    were sent. Every query request of the search carries the search
    document and the variables built from term, page and page size alone. *)
Theorem search_products_ignores_sort_by `{PyRuntime} (backend : Backend)
    (search_term platform : string) (page page_size : Z)
    (sort_by1 sort_by2 : string) (s : State) :
  search_products backend search_term platform page page_size sort_by1 s
  = search_products backend search_term platform page page_size sort_by2 s
  ∧ Forall (fun r => query r = PRODUCT_SEARCH_QUERY
                     ∧ variables r = Some (search_variables search_term page page_size))
      (gets_of (new_events s
         (snd (search_products backend search_term platform page page_size sort_by1 s)))).
Proof.
  split; [reflexivity|].
  rewrite search_products_state.
  destruct (execute_query_attempts backend platform PRODUCT_SEARCH_QUERY
              (search_variables search_term page page_size) "ProductSearch" s)
    as (l & Hl & _ & HP).
  rewrite (new_events_app _ _ _ Hl).
  eapply Forall_impl; [exact HP|].
  intros r (Hq & _ & Hv). auto.
Qed.

(** ** api_client.py: re-authentication on an authorization error *)

Section Reauthentication.
Context `{PyRuntime} (backend : Backend).
Variables (endpoint query_text op_name : string) (vars : json).

(** An attempt on the business backend that is answered with an
    authorization error and followed by a successful login hands over to
    the next iteration of the loop, with the headers of the new token. *)
Lemma attempt_loop_reauthenticates (k : nat) (attempt : Z)
    (hdrs : list (string * string)) (s s2 : State) (e1 : json) :
  let req := query_request endpoint query_text op_name vars hdrs (config s) in
  let s1 := advance (latency (backend (log s) req)) (Sent (clock s) req) s in
  outcome (backend (log s) req) = Body e1 →
  authorization_error e1 →
  authenticate_b2b backend None None s1 = (Ok true, s2) →
  attempt_loop backend (S k) attempt "b2b" endpoint query_text op_name vars hdrs s
  = attempt_loop backend k (attempt + 1) "b2b" endpoint query_text op_name vars
      (b2b_headers (config s2) (b2b_token s2)) s2.
Proof.
  intros req s1 Hout (Hin & errors & errs & Hget & Hiter & Hany) Hauth.
  subst req s1. cbn [attempt_loop]. munfold.
  cbv beta iota zeta. rewrite Hout.
  cbv beta iota. rewrite Hin.
  cbv beta iota. rewrite Hget.
  cbv beta iota. cbn [String.eqb Ascii.eqb Bool.eqb andb]. rewrite Hiter.
  cbv beta iota. rewrite Hany, Hauth.
  cbv beta iota. rewrite get_b2b_headers_run.
  reflexivity.
Qed.

(** An attempt that is answered without [errors] returns the answer. *)
Lemma attempt_loop_answer (k : nat) (attempt : Z)
    (hdrs : list (string * string)) (s : State) (d : json) :
  let req := query_request endpoint query_text op_name vars hdrs (config s) in
  outcome (backend (log s) req) = Body d →
  py_contains "errors" d = Ok false →
  attempt_loop backend (S k) attempt "b2b" endpoint query_text op_name vars hdrs s
  = (Ok (Some d), advance (latency (backend (log s) req)) (Sent (clock s) req) s).
Proof.
  intros req Hout Hin.
  subst req. cbn [attempt_loop]. munfold.
  cbv beta iota zeta. rewrite Hout.
  cbv beta iota. rewrite Hin.
  reflexivity.
Qed.

(** An attempt that is answered with an authorization error and followed
    by a login that returns false ends the loop with an absent result. *)
Lemma attempt_loop_login_fails (k : nat) (attempt : Z)
    (hdrs : list (string * string)) (s s2 : State) (e1 : json) :
  let req := query_request endpoint query_text op_name vars hdrs (config s) in
  let s1 := advance (latency (backend (log s) req)) (Sent (clock s) req) s in
  outcome (backend (log s) req) = Body e1 →
  authorization_error e1 →
  authenticate_b2b backend None None s1 = (Ok false, s2) →
  attempt_loop backend (S k) attempt "b2b" endpoint query_text op_name vars hdrs s
  = (Ok None, s2).
Proof.
  intros req s1 Hout (Hin & errors & errs & Hget & Hiter & Hany) Hauth.
  subst req s1. cbn [attempt_loop]. munfold.
  cbv beta iota zeta. rewrite Hout.
  cbv beta iota. rewrite Hin.
  cbv beta iota. rewrite Hget.
  cbv beta iota. cbn [String.eqb Ascii.eqb Bool.eqb andb]. rewrite Hiter.
  cbv beta iota. rewrite Hany, Hauth.
  reflexivity.
Qed.

(** An exception of the login is not caught by the loop. *)
Lemma attempt_loop_login_raises (k : nat) (attempt : Z)
    (hdrs : list (string * string)) (s s2 : State) (e1 : json) (e : exn) :
  let req := query_request endpoint query_text op_name vars hdrs (config s) in
  let s1 := advance (latency (backend (log s) req)) (Sent (clock s) req) s in
  outcome (backend (log s) req) = Body e1 →
  authorization_error e1 →
  authenticate_b2b backend None None s1 = (Raise e, s2) →
  attempt_loop backend (S k) attempt "b2b" endpoint query_text op_name vars hdrs s
  = (Raise e, s2).
Proof.
  intros req s1 Hout (Hin & errors & errs & Hget & Hiter & Hany) Hauth.
  subst req s1. cbn [attempt_loop]. munfold.
  cbv beta iota zeta. rewrite Hout.
  cbv beta iota. rewrite Hin.
  cbv beta iota. rewrite Hget.
  cbv beta iota. cbn [String.eqb Ascii.eqb Bool.eqb andb]. rewrite Hiter.
  cbv beta iota. rewrite Hany, Hauth.
  reflexivity.
Qed.

(** A network failure that is not the last attempt is followed by the
    back-off sleep and the next iteration. *)
Lemma attempt_loop_backs_off (k : nat) (attempt : Z)
    (hdrs : list (string * string)) (s : State) :
  let req := query_request endpoint query_text op_name vars hdrs (config s) in
  let s1 := advance (latency (backend (log s) req)) (Sent (clock s) req) s in
  outcome (backend (log s) req) = RequestException →
  (attempt <? MMConfig.retry_attempts (config s) - 1)%Z = true →
  attempt_loop backend (S k) attempt "b2b" endpoint query_text op_name vars hdrs s
  = attempt_loop backend k (attempt + 1) "b2b" endpoint query_text op_name vars hdrs
      (advance (inject_Z (2 ^ attempt)) (Slept (inject_Z (2 ^ attempt))) s1).
Proof.
  intros req s1 Hout Hlt.
  subst req s1. cbn [attempt_loop]. munfold.
  cbv beta iota zeta. rewrite Hout.
  cbv beta iota. cbn [config advance]. rewrite Hlt.
  reflexivity.
Qed.
End Reauthentication.

(** A login that returns true has sent exactly one request, a POST. *)
Lemma authenticate_b2b_true_post (backend : Backend)
    (username password : option string) (s s2 : State) :
  authenticate_b2b backend username password s = (Ok true, s2) →
  sent_methods (new_events s s2) = [POST].
Proof.
  intros Hrun.
  assert (Hgen : fst (authenticate_b2b backend username password s) = Ok true →
                 sent_methods
                   (new_events s (snd (authenticate_b2b backend username password s)))
                 = [POST]).
  { unfold authenticate_b2b. munfold. cbv beta iota zeta.
    run_cases; cbn [fst snd]; intros Hres; try discriminate.
    unfold new_events. cbn [log advance set_config set_b2b_token].
    rewrite drop_app_length. reflexivity. }
  rewrite Hrun in Hgen. apply Hgen. reflexivity.
Qed.

(** A call that has come to an iteration goes on as the loop entered
    there. *)
Lemma iteration_run `{PyRuntime} (backend : Backend)
    (query_text : string) (vars : json) (op_name : string) (s : State)
    (n : nat) (attempt : Z) (hdrs : list (string * string)) (si : State) :
  iteration backend query_text vars op_name s n attempt hdrs si →
  _execute_query backend "b2b" query_text vars op_name s
  = attempt_loop backend n attempt "b2b"
      (PlatformConfig.endpoint (MMConfig.b2b (config s)))
      query_text op_name vars hdrs si.
Proof.
  induction 1 as [|n attempt hdrs si req s1 Hiter IH Hout Hlt
                  |n attempt hdrs si s2 e req s1 Hiter IH Hout Herr Hauth].
  - rewrite execute_query_unfold. cbv zeta.
    destruct (rate_limit_run s) as (s0 & Hrl & _ & Hcfg & _).
    rewrite Hrl. cbn [snd String.eqb Ascii.eqb Bool.eqb andb].
    rewrite Hcfg. reflexivity.
  - rewrite IH. apply attempt_loop_backs_off; assumption.
  - rewrite IH. apply attempt_loop_reauthenticates with (e1 := e); assumption.
Qed.

(** The iterations are counted against the budget: the number of the
    iteration and the iterations left add up to the configured attempts,
    which no step of the loop changes. *)
Lemma iteration_budget `{PyRuntime} (backend : Backend)
    (query_text : string) (vars : json) (op_name : string) (s : State)
    (n : nat) (attempt : Z) (hdrs : list (string * string)) (si : State) :
  iteration backend query_text vars op_name s n attempt hdrs si →
  (Z.of_nat n + attempt = Z.of_nat (Z.to_nat (MMConfig.retry_attempts (config s))))%Z
  ∧ (0 <= attempt)%Z
  ∧ MMConfig.retry_attempts (config si) = MMConfig.retry_attempts (config s).
Proof.
  induction 1 as [|n attempt hdrs si req s1 Hiter IH Hout Hlt
                  |n attempt hdrs si s2 e req s1 Hiter IH Hout Herr Hauth].
  - destruct (rate_limit_run s) as (s0 & Hrl & _ & Hcfg & _).
    rewrite Hrl. cbn [snd]. rewrite Hcfg. split; [lia|]. split; [lia | reflexivity].
  - destruct IH as (Hsum & Hattempt & Hcfg).
    split; [lia|]. split; [lia | exact Hcfg].
  - destruct IH as (Hsum & Hattempt & Hcfg).
    split; [lia|]. split; [lia|].
    destruct (authenticate_b2b_keeps backend None None s1) as (_ & Hkeep & _).
    rewrite Hauth in Hkeep. cbn [snd] in Hkeep. rewrite Hkeep. exact Hcfg.
Qed.

(** C1, as the code has it. Whenever an iteration of the retry loop, the
    first or a later one, is answered by the business backend with an
    errors array that mentions authorization, the executor calls the
    authenticator once for that response. If the login returns true, it
    has sent exactly one request; the executor takes the headers of the
    new token and goes on with the next iteration of the loop, which uses
    up one unit of the retry budget: when this was the last iteration the
    call returns an absent result although the login succeeded, and when
    an iteration is left and the retried request is answered without
    errors the call returns the retried answer and stops there. If the
    login returns false the call returns an absent result at once, and an
    exception of the login is raised by the call. *)
Theorem reauthentication_then_retry `{PyRuntime} (backend : Backend)
    (query_text : string) (vars : json) (op_name : string) (s : State)
    (n : nat) (attempt : Z) (hdrs : list (string * string)) (si : State)
    (e1 : json) :
  let endpoint := PlatformConfig.endpoint (MMConfig.b2b (config s)) in
  let req := query_request endpoint query_text op_name vars hdrs (config si) in
  let s1 := advance (latency (backend (log si) req)) (Sent (clock si) req) si in
  let login := authenticate_b2b backend None None s1 in
  let s2 := snd login in
  let hdrs' := b2b_headers (config s2) (b2b_token s2) in
  let req' := query_request endpoint query_text op_name vars hdrs' (config s2) in
  iteration backend query_text vars op_name s (S n) attempt hdrs si →
  outcome (backend (log si) req) = Body e1 →
  authorization_error e1 →
  (Z.of_nat n + attempt + 1 = MMConfig.retry_attempts (config s))%Z
  ∧ (fst login = Ok true →
       sent_methods (new_events s1 s2) = [POST]
       ∧ get_b2b_headers s2 = (Ok hdrs', s2)
       ∧ iteration backend query_text vars op_name s n (attempt + 1) hdrs' s2
       ∧ (n = 0%nat →
          _execute_query backend "b2b" query_text vars op_name s = (Ok None, s2))
       ∧ (∀ d, n ≠ 0%nat →
               outcome (backend (log s2) req') = Body d →
               py_contains "errors" d = Ok false →
               _execute_query backend "b2b" query_text vars op_name s
               = (Ok (Some d),
                  advance (latency (backend (log s2) req')) (Sent (clock s2) req') s2)))
  ∧ (fst login = Ok false →
       _execute_query backend "b2b" query_text vars op_name s = (Ok None, s2))
  ∧ (∀ e, fst login = Raise e →
          _execute_query backend "b2b" query_text vars op_name s = (Raise e, s2)).
Proof.
  intros endpoint req s1 login s2 hdrs' req' Hiter Hout Herr.
  split; [|split; [|split]].
  - apply iteration_budget in Hiter as (Hsum & Hattempt & _). lia.
  - intros Hlogin.
    assert (Hrun : authenticate_b2b backend None None s1 = (Ok true, s2)).
    { unfold s2, login in *. destruct (authenticate_b2b backend None None s1) as [r sx].
      cbn in *. rewrite Hlogin. reflexivity. }
    pose proof (iteration_after_login backend query_text vars op_name s n attempt
                  hdrs si s2 e1 Hiter Hout Herr Hrun) as Hnext.
    split; [apply (authenticate_b2b_true_post backend None None); exact Hrun|].
    split; [apply get_b2b_headers_run|]. split; [exact Hnext|].
    apply iteration_run in Hnext. rewrite Hnext. split.
    + intros ->. reflexivity.
    + intros d Hn Hout' Hclean. destruct n as [|n]; [contradiction|].
      apply attempt_loop_answer; assumption.
  - intros Hlogin.
    assert (Hrun : authenticate_b2b backend None None s1 = (Ok false, s2)).
    { unfold s2, login in *. destruct (authenticate_b2b backend None None s1) as [r sx].
      cbn in *. rewrite Hlogin. reflexivity. }
    apply iteration_run in Hiter. rewrite Hiter.
    apply attempt_loop_login_fails with (e1 := e1); assumption.
  - intros e Hlogin.
    assert (Hrun : authenticate_b2b backend None None s1 = (Raise e, s2)).
    { unfold s2, login in *. destruct (authenticate_b2b backend None None s1) as [r sx].
      cbn in *. rewrite Hlogin. reflexivity. }
    apply iteration_run in Hiter. rewrite Hiter.
    apply attempt_loop_login_raises with (e1 := e1); assumption.
Qed.

(** After a first request that the network drops, the second attempt is
    answered with an authorization error; the login succeeds and, one
    attempt of the three being left, the retried request is answered. *)
Lemma reauthentication_then_retry_b2b :
  let run := @_execute_query simple_runtime backend_flaky_auth "b2b"
               PRODUCT_SEARCH_QUERY (search_variables "gao" 1 24) "ProductSearch"
               client0 in
  fst run = Ok (Some (products_json [item_json 1 "SKU1" "Gao ST25" 90000 100000] 1 1))
  ∧ sent_methods (log (snd run)) = [GET; GET; POST; GET].
Proof.
  cbv zeta. split; [|vm_compute; reflexivity].
  set (vars := search_variables "gao" 1 24).
  set (s0 := snd (_rate_limit client0)).
  set (hdrs := @b2b_headers simple_runtime (config s0) (b2b_token s0)).
  set (req0 := @query_request "https://mmpro.vn/graphql" PRODUCT_SEARCH_QUERY
                 "ProductSearch" vars hdrs (config s0)).
  set (s1 := advance 1 (Slept 1)
               (advance (latency (backend_flaky_auth (log s0) req0))
                  (Sent (clock s0) req0) s0)).
  assert (Hiter : @iteration simple_runtime backend_flaky_auth PRODUCT_SEARCH_QUERY
                    vars "ProductSearch" client0 2 1 hdrs s1).
  { apply (@iteration_after_failure simple_runtime backend_flaky_auth
             PRODUCT_SEARCH_QUERY vars "ProductSearch" client0 2 0 hdrs s0);
      [apply (@iteration_first simple_runtime) | reflexivity | reflexivity]. }
  destruct (@reauthentication_then_retry simple_runtime backend_flaky_auth
              PRODUCT_SEARCH_QUERY vars "ProductSearch" client0 1 1 hdrs s1
              (JDict [("errors",
                 JList [JDict [("message", JStr "The current customer is not authorized.");
                               ("extensions",
                                JDict [("category", JStr "graphql-authorization")])]])])
              Hiter)
    as (_ & Hretry & _).
  - vm_compute. reflexivity.
  - split; [reflexivity|].
    eexists _, _. split; [reflexivity|]. split; [reflexivity|].
    vm_compute. reflexivity.
  - destruct Hretry as (_ & _ & _ & _ & Hanswer); [vm_compute; reflexivity|].
    rewrite (Hanswer (products_json [item_json 1 "SKU1" "Gao ST25" 90000 100000] 1 1));
      [reflexivity | discriminate | vm_compute; reflexivity | reflexivity].
Defined.

(** C1, as the claim states it, fails in three ways. With a budget of a
    single attempt the business backend answers the only attempt with an
    authorization error, the login succeeds and stores the token, the
    backend would answer a request that carries it, and yet the call ends
    with an absent result after one GET and one POST: the retry would
    have needed a unit of the budget. With a budget of two attempts of
    which the network drops the first, the same happens on the second
    attempt. And with a backend that rejects every query, a call with a
    budget of three attempts logs in three times, once for each response,
    not once. *)
Lemma reauthentication_uses_the_budget :
  let vars := search_variables "gao" 1 24 in
  let run1 := @_execute_query simple_runtime backend_auth "b2b" PRODUCT_SEARCH_QUERY
                vars "ProductSearch" client1 in
  let retry1 := @query_request "https://mmpro.vn/graphql" PRODUCT_SEARCH_QUERY
                  "ProductSearch" vars
                  (@b2b_headers simple_runtime (config (snd run1)) (b2b_token (snd run1)))
                  (config (snd run1)) in
  let run2 := @_execute_query simple_runtime backend_flaky_auth "b2b"
                PRODUCT_SEARCH_QUERY vars "ProductSearch" client2 in
  let retry2 := @query_request "https://mmpro.vn/graphql" PRODUCT_SEARCH_QUERY
                  "ProductSearch" vars
                  (@b2b_headers simple_runtime (config (snd run2)) (b2b_token (snd run2)))
                  (config (snd run2)) in
  let run3 := @_execute_query simple_runtime backend_expired "b2b"
                PRODUCT_SEARCH_QUERY vars "ProductSearch" client0 in
  (MMConfig.retry_attempts (config client1) = 1%Z
   ∧ fst run1 = Ok None
   ∧ sent_methods (log (snd run1)) = [GET; POST]
   ∧ b2b_token (snd run1) = JStr "t0k3n"
   ∧ outcome (backend_auth (log (snd run1)) retry1)
     = Body (products_json [item_json 1 "SKU1" "Gao ST25" 90000 100000] 1 1))
  ∧ (MMConfig.retry_attempts (config client2) = 2%Z
     ∧ fst run2 = Ok None
     ∧ sent_methods (log (snd run2)) = [GET; GET; POST]
     ∧ b2b_token (snd run2) = JStr "t0k3n"
     ∧ outcome (backend_flaky_auth (log (snd run2)) retry2)
       = Body (products_json [item_json 1 "SKU1" "Gao ST25" 90000 100000] 1 1))
  ∧ (MMConfig.retry_attempts (config client0) = 3%Z
     ∧ fst run3 = Ok None
     ∧ sent_methods (log (snd run3)) = [GET; POST; GET; POST; GET; POST]).
Proof. vm_compute. repeat split. Qed.

(** ** api_client.py: [search_products] on missing fields *)

Lemma products_payload_inv (result : option json) (pd : json) :
  products_payload result = Some pd →
  ∃ kv kvs d, result = Some (JDict (kv :: kvs))
              ∧ assoc "data" (kv :: kvs) = Some (JDict d)
              ∧ assoc "products" d = Some pd.
Proof.
  unfold products_payload. intros Hp.
  destruct result as [[| | | | | |kvs]|]; try discriminate.
  destruct (assoc "data" kvs) as [[| | | | | |d]|] eqn:Hd; try discriminate.
  destruct kvs as [|kv kvs]; [discriminate|].
  eauto 6.
Qed.

(** C2, as the code has it. [search_products] returns an absent result when
    the executor returned none, when the response object has no [data]
    member and when its [data] object has no [products] member. A products
    payload that lacks its [items], or whose first item lacks its
    [price_range], is not turned into an absent result: the [KeyError] of
    the lookup leaves [search_products]. *)
Theorem search_products_absent_or_raises `{PyRuntime} (backend : Backend)
    (search_term platform : string) (page page_size : Z) (sort_by : string)
    (s s' : State) (result : option json) :
  _execute_query backend platform PRODUCT_SEARCH_QUERY
    (search_variables search_term page page_size) "ProductSearch" s
  = (Ok result, s') →
  let run := search_products backend search_term platform page page_size sort_by s in
  (absent_products result → run = (Ok None, s'))
  ∧ (∀ p, products_payload result = Some (JDict p) →
          assoc "items" p = None → run = (Raise KeyError, s'))
  ∧ (∀ p item items,
        products_payload result = Some (JDict p) →
        assoc "items" p = Some (JList (JDict item :: items)) →
        assoc "price_range" item = None → run = (Raise KeyError, s')).
Proof.
  intros Hexec run. subst run. unfold search_products. cbv zeta.
  rewrite (bind_ok _ _ _ _ _ Hexec).
  split; [|split].
  - intros Habsent.
    destruct Habsent as [ | kvs Hdata | kvs d Hdata Hproducts ].
    + reflexivity.
    + destruct kvs as [|kv kvs]; [reflexivity|].
      cbn [py_truthy negb]. munfold. cbv beta iota.
      unfold py_contains. rewrite Hdata. reflexivity.
    + destruct kvs as [|kv kvs]; [discriminate|].
      cbn [py_truthy negb]. munfold. cbv beta iota.
      unfold py_contains, py_getitem. rewrite Hdata.
      cbn [negb res_bind]. rewrite Hproducts. reflexivity.
  - intros p Hp Hitems.
    destruct (products_payload_inv _ _ Hp) as (kv & kvs & d & -> & Hdata & Hproducts).
    cbn [py_truthy negb]. munfold. cbv beta iota.
    unfold py_contains, py_getitem. rewrite Hdata.
    cbn [negb res_bind]. rewrite Hproducts.
    cbn [negb res_bind]. rewrite Hitems. reflexivity.
  - intros p item items Hp Hitems Hprice.
    destruct (products_payload_inv _ _ Hp) as (kv & kvs & d & -> & Hdata & Hproducts).
    cbn [py_truthy negb]. munfold. cbv beta iota.
    unfold py_contains, py_getitem. rewrite Hdata.
    cbn [negb res_bind]. rewrite Hproducts.
    cbn [negb res_bind]. rewrite Hitems.
    cbn [res_bind py_iter mapM]. unfold _parse_product. munfold.
    unfold py_getitem. rewrite Hprice. reflexivity.
Qed.

Lemma search_products_absent_when_down :
  fst (@search_products simple_runtime backend_down "gao" "b2c" 1 24 "relevance" client0)
  = Ok None.
Proof.
  set (s' := snd (@_execute_query simple_runtime backend_down "b2c" PRODUCT_SEARCH_QUERY
                    (search_variables "gao" 1 24) "ProductSearch" client0)).
  destruct (@search_products_absent_or_raises simple_runtime backend_down
              "gao" "b2c" 1 24 "relevance" client0 s' None) as [Habsent _].
  - vm_compute. reflexivity.
  - rewrite (Habsent absent_failed). reflexivity.
Defined.

Example search_products_raises_without_items :
  fst (@search_products simple_runtime backend_no_items "sua" "b2c" 1 24 "relevance" client0)
  = Raise KeyError.
Proof. vm_compute. reflexivity. Qed.

(** C2, as the claim states it, fails on an item without [price_range]:
    the call raises [KeyError] instead of returning. *)
Lemma search_products_raises_on_bad_item :
  fst (@search_products simple_runtime backend_bad_item "sua" "b2c" 1 24 "relevance" client0)
  = Raise KeyError.
Proof. vm_compute. reflexivity. Qed.

(** ** api_client.py: price comparison *)

#[global] Instance savings_ge_trans : Transitive savings_ge.
Proof.
  intros a b c Hab Hbc. unfold savings_ge in *.
  eapply Qle_trans; [exact Hbc | exact Hab].
Qed.

Lemma insert_by_savings_Permutation (c : PriceComparison.t)
    (sorted : list PriceComparison.t) :
  insert_by_savings c sorted ≡ₚ c :: sorted.
Proof.
  induction sorted as [|x sorted IH]; cbn; [reflexivity|].
  destruct (Qlt_bool _ _); [|reflexivity].
  rewrite IH. apply Permutation_swap.
Qed.

(** The sort keeps the comparisons, each as often as it occurs. *)
Lemma sort_by_savings_Permutation (comparisons : list PriceComparison.t) :
  sort_by_savings comparisons ≡ₚ comparisons.
Proof.
  induction comparisons as [|c comparisons IH]; cbn; [reflexivity|].
  rewrite insert_by_savings_Permutation, IH. reflexivity.
Qed.

Lemma insert_by_savings_sorted (c : PriceComparison.t)
    (sorted : list PriceComparison.t) :
  StronglySorted savings_ge sorted →
  StronglySorted savings_ge (insert_by_savings c sorted).
Proof.
  induction 1 as [|x sorted Hsorted IH Hx]; cbn.
  - repeat constructor.
  - destruct (Qlt_bool _ _) eqn:Hlt.
    + apply Qlt_bool_iff in Hlt. constructor; [exact IH|].
      rewrite insert_by_savings_Permutation. constructor; [|exact Hx].
      unfold savings_ge. apply Qlt_le_weak. exact Hlt.
    + apply Qlt_bool_false_iff in Hlt.
      constructor; [constructor; assumption|].
      constructor; [exact Hlt|].
      eapply Forall_impl; [exact Hx|].
      intros y Hy. transitivity x; [exact Hlt | exact Hy].
Qed.

(** The sort puts the comparisons in descending order of their savings. *)
Lemma sort_by_savings_sorted (comparisons : list PriceComparison.t) :
  StronglySorted savings_ge (sort_by_savings comparisons).
Proof.
  induction comparisons as [|c comparisons IH]; cbn; [constructor|].
  apply insert_by_savings_sorted. exact IH.
Qed.

Lemma insert_by_savings_stable (q : Q) (c : PriceComparison.t)
    (sorted : list PriceComparison.t) :
  List.filter (fun x => Qeq_bool (PriceComparison.savings_percentage x) q)
              (insert_by_savings c sorted)
  = List.filter (fun x => Qeq_bool (PriceComparison.savings_percentage x) q)
                (c :: sorted).
Proof.
  induction sorted as [|x sorted IH]; [reflexivity|].
  cbn [insert_by_savings].
  destruct (Qlt_bool _ _) eqn:Hlt; [|reflexivity].
  apply Qlt_bool_iff in Hlt.
  cbn [List.filter] in *. rewrite IH.
  destruct (Qeq_bool (PriceComparison.savings_percentage c) q) eqn:Hc; [|reflexivity].
  destruct (Qeq_bool (PriceComparison.savings_percentage x) q) eqn:Hx; [|reflexivity].
  apply Qeq_bool_iff in Hc, Hx. rewrite Hc, Hx in Hlt.
  exfalso. exact (Qlt_irrefl _ Hlt).
Qed.

(** The sort is stable: the comparisons with one and the same savings
    percentage stand in the order in which they were appended. *)
Lemma sort_by_savings_stable (q : Q) (comparisons : list PriceComparison.t) :
  List.filter (fun x => Qeq_bool (PriceComparison.savings_percentage x) q)
              (sort_by_savings comparisons)
  = List.filter (fun x => Qeq_bool (PriceComparison.savings_percentage x) q)
                comparisons.
Proof.
  induction comparisons as [|c comparisons IH]; [reflexivity|].
  cbn [sort_by_savings foldr]. rewrite insert_by_savings_stable.
  cbn [List.filter]. fold (sort_by_savings comparisons). rewrite IH. reflexivity.
Qed.

(** An entry of the sku lookup is one of the products it was built from,
    filed under its own sku. *)
Lemma foldl_insert_sku_lookup (products : list Product.t)
    (m : gmap string Product.t) (k : string) (p : Product.t) :
  foldl (fun m p => <[Product.sku p := p]> m) m products !! k = Some p →
  (p ∈ products ∧ Product.sku p = k) ∨ m !! k = Some p.
Proof.
  revert m. induction products as [|q products IH]; intros m Hlook; cbn in Hlook.
  - right. exact Hlook.
  - destruct (IH _ Hlook) as [[Hin Hsku] | Hm].
    + left. split; [right; exact Hin | exact Hsku].
    + destruct (decide (Product.sku q = k)) as [Heq | Hne].
      * rewrite <- Heq, lookup_insert_eq in Hm.
        injection Hm as <-. left. split; [left | exact Heq].
      * rewrite lookup_insert_ne in Hm by exact Hne. right. exact Hm.
Qed.

Lemma by_sku_lookup (products : list Product.t) (k : string) (p : Product.t) :
  by_sku products !! k = Some p → p ∈ products ∧ Product.sku p = k.
Proof.
  intros Hlook. destruct (foldl_insert_sku_lookup _ _ _ _ Hlook) as [Hin | Hempty].
  - exact Hin.
  - rewrite lookup_empty in Hempty. discriminate.
Qed.

Lemma compare_one_sku (b2b_products : list Product.t) (b2c_product : Product.t)
    (c : PriceComparison.t) :
  compare_one (by_sku b2b_products) b2c_product = Some c →
  PriceComparison.sku c = Product.sku b2c_product
  ∧ PriceComparison.sku c ∈ Product.sku <$> b2b_products.
Proof.
  unfold compare_one.
  destruct (by_sku b2b_products !! Product.sku b2c_product) as [b2b_product|] eqn:Hlook;
    [|discriminate].
  intros [= <-]. cbn. split; [reflexivity|].
  destruct (by_sku_lookup _ _ _ Hlook) as [Hin Hsku].
  rewrite <- Hsku. apply list_elem_of_fmap_2. exact Hin.
Qed.

(** The comparison of two search results: nothing when one of them is
    absent, else a list sorted by descending savings percentage whose skus
    occur on both sides. *)
Lemma compare_results_spec (r1 r2 : option SearchResult.t) :
  ((r1 = None ∨ r2 = None) → compare_results r1 r2 = [])
  ∧ (∀ b2c_result b2b_result,
        r1 = Some b2c_result → r2 = Some b2b_result →
        (∀ c, c ∈ compare_results r1 r2 →
              PriceComparison.sku c ∈ Product.sku <$> SearchResult.products b2c_result
              ∧ PriceComparison.sku c ∈ Product.sku <$> SearchResult.products b2b_result)
        ∧ StronglySorted savings_ge (compare_results r1 r2)).
Proof.
  split.
  - intros [-> | ->]; [reflexivity | destruct r1; reflexivity].
  - intros b2c_result b2b_result -> ->. cbn [compare_results]. split.
    + intros c Hc. rewrite sort_by_savings_Permutation in Hc.
      apply list_elem_of_omap in Hc as (p & Hp & Hone).
      apply compare_one_sku in Hone as [Hsku Hin].
      split; [|exact Hin].
      rewrite Hsku. apply list_elem_of_fmap_2. exact Hp.
    + apply sort_by_savings_sorted.
Qed.

Lemma compare_prices_run `{PyRuntime} (backend : Backend)
    (search_term : string) (max_results : Z) (s : State) :
  compare_prices backend search_term max_results s
  = match search_products backend search_term "b2c" 1 max_results "relevance" s with
    | (Raise e, s1) => (Raise e, s1)
    | (Ok r1, s1) =>
        match search_products backend search_term "b2b" 1 max_results "relevance" s1 with
        | (Raise e, s2) => (Raise e, s2)
        | (Ok r2, s2) => (Ok (compare_results r1 r2), s2)
        end
    end.
Proof.
  unfold compare_prices, mbind, M_bind.
  destruct (search_products backend search_term "b2c" 1 max_results "relevance" s)
    as [[r1|e1] s1]; [|reflexivity].
  destruct (search_products backend search_term "b2b" 1 max_results "relevance" s1)
    as [[r2|e2] s2]; reflexivity.
Qed.

(** C3, as the code has it. [compare_prices] runs the consumer search and
    then the business search. An exception of a search is not caught: it
    ends the comparison, which raises it in turn, and after a consumer
    search that raised the business search is not run. When both searches
    return, [compare_prices] returns: the empty list if either search came
    back absent; otherwise a list in which every comparison's sku occurs
    in the consumer and in the business result, sorted by savings
    percentage in descending order. *)
Theorem compare_prices_spec `{PyRuntime} (backend : Backend)
    (search_term : string) (max_results : Z) (s : State) :
  let run1 := search_products backend search_term "b2c" 1 max_results "relevance" s in
  let run2 := search_products backend search_term "b2b" 1 max_results "relevance"
                (snd run1) in
  let run := compare_prices backend search_term max_results s in
  (∀ e, fst run1 = Raise e → run = (Raise e, snd run1))
  ∧ (∀ r1 e, fst run1 = Ok r1 → fst run2 = Raise e → run = (Raise e, snd run2))
  ∧ (∀ r1 r2, fst run1 = Ok r1 → fst run2 = Ok r2 →
       ∃ comparisons,
         run = (Ok comparisons, snd run2)
         ∧ ((r1 = None ∨ r2 = None) → comparisons = [])
         ∧ (∀ b2c_result b2b_result,
               r1 = Some b2c_result → r2 = Some b2b_result →
               (∀ c, c ∈ comparisons →
                     PriceComparison.sku c
                       ∈ Product.sku <$> SearchResult.products b2c_result
                     ∧ PriceComparison.sku c
                       ∈ Product.sku <$> SearchResult.products b2b_result)
               ∧ StronglySorted savings_ge comparisons)).
Proof.
  cbv zeta. rewrite compare_prices_run.
  destruct (search_products backend search_term "b2c" 1 max_results "relevance" s)
    as [[r1|e1] s1]; cbn [fst snd].
  - destruct (search_products backend search_term "b2b" 1 max_results "relevance" s1)
      as [[r2|e2] s2]; cbn [fst snd].
    + split; [discriminate|]. split; [discriminate|].
      intros r1' r2' [= <-] [= <-].
      exists (compare_results r1 r2). split; [reflexivity|].
      apply compare_results_spec.
    + split; [discriminate|]. split; [|discriminate].
      intros r1' e [= <-] [= <-]. reflexivity.
  - split; [|split; discriminate].
    intros e [= <-]. reflexivity.
Qed.

Lemma compare_prices_spec_shop :
  ∃ comparisons,
    fst (@compare_prices simple_runtime backend_shop "gao" 20 client0) = Ok comparisons
    ∧ (PriceComparison.sku <$> comparisons) = ["SKU3"; "SKU1"]
    ∧ StronglySorted savings_ge comparisons.
Proof.
  set (run1 := @search_products simple_runtime backend_shop "gao" "b2c" 1 20 "relevance" client0).
  set (run2 := @search_products simple_runtime backend_shop "gao" "b2b" 1 20 "relevance" (snd run1)).
  set (get := fun r : res (option SearchResult.t) =>
                match r with Ok (Some x) => Some x | _ => None end).
  destruct (@compare_prices_spec simple_runtime backend_shop "gao" 20 client0)
    as (_ & _ & Hok).
  destruct (Hok (get (fst run1)) (get (fst run2)))
    as (comparisons & Hrun & _ & Hboth).
  - vm_compute. reflexivity.
  - vm_compute. reflexivity.
  - exists comparisons. rewrite Hrun. split; [reflexivity|].
    destruct (get (fst run1)) as [b2c_result|] eqn:H1; [|discriminate].
    destruct (get (fst run2)) as [b2b_result|] eqn:H2; [|discriminate].
    destruct (Hboth b2c_result b2b_result eq_refl eq_refl) as [_ Hsorted].
    split; [|exact Hsorted].
    assert (Hcs : (Ok comparisons, snd run2)
                  = @compare_prices simple_runtime backend_shop "gao" 20 client0)
      by (symmetry; exact Hrun).
    vm_compute in Hcs. injection Hcs as ->. reflexivity.
Defined.

(** C3, as the claim states it, fails when a search raises. The consumer
    platform is unreachable, so the consumer search comes back absent: one
    of the two searches has failed. The business search then meets an item
    without its [price_range] and raises, and so does the comparison: it
    does not return the empty list. *)
Lemma compare_prices_raises_with_a_search :
  let run1 := @search_products simple_runtime backend_down_and_bad_item
                "sua" "b2c" 1 20 "relevance" client0 in
  let run2 := @search_products simple_runtime backend_down_and_bad_item
                "sua" "b2b" 1 20 "relevance" (snd run1) in
  let run := @compare_prices simple_runtime backend_down_and_bad_item "sua" 20 client0 in
  fst run1 = Ok None
  ∧ fst run2 = Raise KeyError
  ∧ fst run = Raise KeyError
  ∧ fst run ≠ Ok [].
Proof. vm_compute. repeat split. discriminate. Qed.

(** * Properties of the rest of the package *)

(** ** auth.py *)

(** Without a usable e-mail or password, from the arguments or from the
    configuration, [authenticate_b2b] returns false and leaves the world
    as it is: nothing is sent. *)
Theorem authenticate_b2b_without_credentials (backend : Backend)
    (username password : option string) (s : State) :
  str_truthy (py_or username (AuthConfig.username (MMConfig.b2b_auth (config s)))) = false
  ∨ str_truthy (py_or password (AuthConfig.password (MMConfig.b2b_auth (config s)))) = false →
  authenticate_b2b backend username password s = (Ok false, s).
Proof.
  intros Hmissing. unfold authenticate_b2b. munfold. cbv beta iota.
  destruct (py_or username _) as [email|] eqn:He;
    destruct (py_or password _) as [pwd|] eqn:Hp; try reflexivity.
  destruct Hmissing as [Hm | Hm]; rewrite Hm; [reflexivity|].
  rewrite orb_true_r. reflexivity.
Qed.

Lemma authenticate_b2b_without_credentials_empty_password :
  authenticate_b2b backend_auth (Some "buyer@example.com") (Some "") client_anonymous
  = (Ok false, client_anonymous).
Proof.
  apply authenticate_b2b_without_credentials. right. reflexivity.
Defined.

(** [authenticate_b2b] stores a token only when it returns true, and then in
    both places: the client's own field and the shared configuration hold
    the same token, the rest of the configuration is as before, and
    exactly one request, a POST, was sent. Whenever it does not return
    true, whether it returns false or raises, the token and the
    configuration are untouched. *)
Theorem authenticate_b2b_outcome (backend : Backend)
    (username password : option string) (s : State) :
  let run := authenticate_b2b backend username password s in
  (fst run = Ok true →
     b2b_token (snd run) = AuthConfig.customer_token (MMConfig.b2b_auth (config (snd run)))
     ∧ config (snd run) = MMConfig.set_customer_token (config s) (b2b_token (snd run))
     ∧ sent_methods (new_events s (snd run)) = [POST])
  ∧ (fst run ≠ Ok true →
     b2b_token (snd run) = b2b_token s ∧ config (snd run) = config s).
Proof.
  cbv zeta. unfold authenticate_b2b. munfold. cbv beta iota zeta.
  run_cases; cbn [fst snd]; split; intros Hres;
    try discriminate; try (exfalso; apply Hres; reflexivity);
    try (split; reflexivity).
  repeat split. unfold new_events. cbn [log advance set_config set_b2b_token].
  rewrite drop_app_length. reflexivity.
Qed.

(** [logout_b2b] without a token succeeds at once and sends nothing. When
    it returns true no usable token is left: a token that was held has
    been cleared, in the client and in the configuration. Whenever it does
    not return true the token and the configuration are untouched. *)
Theorem logout_b2b_outcome `{PyRuntime} (backend : Backend) (s : State) :
  let run := logout_b2b backend s in
  (py_truthy (b2b_token s) = false → run = (Ok true, s))
  ∧ (fst run = Ok true →
       py_truthy (b2b_token (snd run)) = false
       ∧ (py_truthy (b2b_token s) = true →
            b2b_token (snd run) = JNull
            ∧ AuthConfig.customer_token (MMConfig.b2b_auth (config (snd run))) = JNull
            ∧ sent_methods (new_events s (snd run)) = [POST]))
  ∧ (fst run ≠ Ok true →
       b2b_token (snd run) = b2b_token s ∧ config (snd run) = config s).
Proof.
  cbv zeta. unfold logout_b2b, get_b2b_headers. munfold. cbv beta iota zeta.
  destruct (py_truthy (b2b_token s)) eqn:Htok; cbn [negb].
  - split; [discriminate|].
    run_cases; cbn [fst snd]; split; intros Hres;
      try discriminate; try (exfalso; apply Hres; reflexivity);
      try (split; reflexivity).
    split; [reflexivity|]. intros _. repeat split.
    unfold new_events. cbn [log advance set_config set_b2b_token].
    rewrite drop_app_length. reflexivity.
  - split; [reflexivity|]. cbn [fst snd]. split.
    + intros _. split; [exact Htok | discriminate].
    + intros Hres. exfalso. apply Hres. reflexivity.
Qed.

(** [verify_b2b_token] only reads: the token and the configuration are the
    same afterwards, whatever it returns. Without a token it returns false
    and sends nothing; when it returns true it has sent exactly one
    request, a POST that carries the bearer token. *)
Theorem verify_b2b_token_outcome `{PyRuntime} (backend : Backend) (s : State) :
  let run := verify_b2b_token backend s in
  b2b_token (snd run) = b2b_token s
  ∧ config (snd run) = config s
  ∧ (py_truthy (b2b_token s) = false → run = (Ok false, s))
  ∧ (fst run = Ok true →
       ∃ r, sent_requests (new_events s (snd run)) = [r]
            ∧ method r = POST
            ∧ headers r = b2b_headers (config s) (b2b_token s)
            ∧ carries_bearer (headers r) = true).
Proof.
  cbv zeta. unfold verify_b2b_token, get_b2b_headers. munfold. cbv beta iota zeta.
  destruct (py_truthy (b2b_token s)) eqn:Htok; cbn [negb].
  - assert (Hbearer : carries_bearer (b2b_headers (config s) (b2b_token s)) = true).
    { unfold carries_bearer, b2b_headers. rewrite Htok, existsb_app. reflexivity. }
    run_cases; cbn [fst snd]; repeat (split; [reflexivity|]);
      (split; [discriminate|]); intros Hres; try discriminate.
    eexists. unfold new_events. cbn [log advance].
    rewrite drop_app_length. do 3 (split; [reflexivity|]). exact Hbearer.
  - cbn [fst snd]. do 3 (split; [reflexivity|]). discriminate.
Qed.

(** ** api_client.py: more on the executor *)

Lemma sent_requests_app (l1 l2 : list Event) :
  sent_requests (l1 ++ l2) = sent_requests l1 ++ sent_requests l2.
Proof.
  induction l1 as [|[d|t r] l1 IH]; cbn; [reflexivity | exact IH |].
  rewrite IH. reflexivity.
Qed.

Lemma sent_times_app (l1 l2 : list Event) :
  sent_times (l1 ++ l2) = sent_times l1 ++ sent_times l2.
Proof.
  induction l1 as [|[d|t r] l1 IH]; cbn; [reflexivity | exact IH |].
  rewrite IH. reflexivity.
Qed.

Lemma rate_limit_sends_nothing (s : State) :
  ∃ l, log (snd (_rate_limit s)) = log s ++ l
       ∧ sent_requests l = [] ∧ sent_times l = [].
Proof.
  unfold _rate_limit. munfold.
  destruct (Qlt_bool (clock s - _last_request_time s)
                     (MMConfig.rate_limit_delay (config s))); cbn.
  - eexists [_]. repeat split.
  - exists []. split; [symmetry; apply app_nil_r | split; reflexivity].
Qed.

Section ConsumerQueries.
Context `{PyRuntime} (backend : Backend).
Variables (endpoint query_text op_name : string) (vars : json).
Variable hdrs : list (string * string).

(** On the consumer platform the loop only sleeps and sends its GET, with
    the headers it was started with. *)
Lemma attempt_loop_b2c (k : nat) :
  ∀ (attempt : Z) (s : State),
    let s' := snd (attempt_loop backend k attempt "b2c" endpoint query_text
                     op_name vars hdrs s) in
    config s' = config s ∧ b2b_token s' = b2b_token s
    ∧ ∃ l, log s' = log s ++ l
           ∧ Forall (fun r => method r = GET ∧ url r = endpoint ∧ headers r = hdrs)
                    (sent_requests l).
Proof.
  induction k as [|k IH]; intros attempt s; cbv zeta.
  - cbn. repeat split. exists []. split; [symmetry; apply app_nil_r | constructor].
  - cbn [attempt_loop]. munfold. cbv beta iota zeta.
    set (req := query_request endpoint query_text op_name vars hdrs (config s)).
    set (s1 := advance _ (Sent (clock s) req) s).
    assert (Hone : ∃ l, log s1 = log s ++ l
                        ∧ Forall (fun r => method r = GET ∧ url r = endpoint
                                           ∧ headers r = hdrs) (sent_requests l)).
    { exists [Sent (clock s) req]. split; [reflexivity|].
      cbn. constructor; [repeat split | constructor]. }
    destruct (outcome (backend (log s) req)) as [|data].
    + destruct (attempt <? MMConfig.retry_attempts (config s) - 1)%Z.
      * set (s2 := advance _ (Slept _) s1).
        destruct (IH (attempt + 1)%Z s2) as (Hc & Ht & l & Hl & HP).
        split; [exact Hc|]. split; [exact Ht|].
        exists (Sent (clock s) req :: Slept (inject_Z (2 ^ attempt)) :: l).
        split.
        -- rewrite Hl. cbn. rewrite <- !app_assoc. reflexivity.
        -- cbn. constructor; [repeat split | exact HP].
      * cbn. repeat split. exact Hone.
    + run_cases; cbn [fst snd]; repeat split; try exact Hone; discriminate.
Qed.
End ConsumerQueries.

(** A call of the executor on the consumer platform never logs in and
    never sends the bearer token: the token and the configuration are the
    same afterwards, and every request of the call is a GET to the
    consumer endpoint without an [Authorization] header. *)
Theorem consumer_query_never_authenticates `{PyRuntime} (backend : Backend)
    (query_text : string) (vars : json) (op_name : string) (s : State) :
  let s' := snd (_execute_query backend "b2c" query_text vars op_name s) in
  config s' = config s
  ∧ b2b_token s' = b2b_token s
  ∧ Forall (fun r => method r = GET
                     ∧ url r = PlatformConfig.endpoint (MMConfig.b2c (config s))
                     ∧ carries_bearer (headers r) = false)
           (sent_requests (new_events s s')).
Proof.
  cbv zeta. rewrite execute_query_unfold. cbv zeta.
  destruct (rate_limit_run s) as (s0 & Hrl & _ & Hcfg & Htok & _).
  destruct (rate_limit_sends_nothing s) as (l0 & Hl0 & Hs0 & _).
  rewrite Hrl in *. cbn [snd] in *.
  cbn [String.eqb Ascii.eqb Bool.eqb andb].
  edestruct (attempt_loop_b2c backend) as (Hc & Ht & l & Hl & HP).
  split; [rewrite Hc; exact Hcfg|]. split; [rewrite Ht; exact Htok|].
  erewrite new_events_app; [|rewrite Hl, Hl0, <- app_assoc; reflexivity].
  rewrite sent_requests_app, Hs0. cbn [app].
  eapply Forall_impl; [exact HP|].
  intros r (Hm & Hu & Hh). rewrite Hh, Hu, Hcfg.
  split; [exact Hm|]. split; reflexivity.
Qed.

Section ExecutorEdges.
Context `{PyRuntime} (backend : Backend).
Variables (platform query_text : string) (vars : json) (op_name : string).

(** The rate limiter never moves the clock back, and when it returns at
    least [rate_limit_delay] has passed since the previous watermark. *)
Lemma rate_limit_waits (s : State) :
  let s0 := snd (_rate_limit s) in
  (_last_request_time s + MMConfig.rate_limit_delay (config s) <= clock s0)%Q
  ∧ (clock s <= clock s0)%Q.
Proof.
  cbv zeta. destruct (rate_limit_run s) as (s0 & Hrl & _ & _ & _ & Hclock & _).
  rewrite Hrl. cbn [snd]. rewrite Hclock.
  destruct (Qlt_bool _ _) eqn:Hlt.
  - apply Qlt_bool_iff in Hlt. split; lra.
  - apply Qlt_bool_false_iff in Hlt. split; lra.
Qed.

(** The watermark after a call is the clock reading of its rate limiter,
    and so is the time of the first request of the call, if it made one. *)
Lemma execute_query_first_sent (s : State) :
  let s0 := snd (_rate_limit s) in
  let s' := snd (_execute_query backend platform query_text vars op_name s) in
  _last_request_time s' = clock s0
  ∧ (∀ t, head (sent_times (new_events s s')) = Some t → t = clock s0).
Proof.
  cbv zeta. rewrite execute_query_unfold. cbv zeta.
  destruct (rate_limit_run s) as (s0 & Hrl & Hwm & _).
  destruct (rate_limit_sends_nothing s) as (l0 & Hl0 & _ & Ht0).
  rewrite Hrl in *. cbn [snd] in *.
  set (endpoint := if String.eqb platform "b2c" then _ else _).
  set (hdrs := if String.eqb platform "b2c" then _ else _).
  destruct (Z.to_nat (MMConfig.retry_attempts (config s))) as [|k].
  - cbn. split; [exact Hwm|]. intros t.
    rewrite (new_events_app _ _ _ Hl0), Ht0. discriminate.
  - destruct (attempt_loop_step backend platform endpoint query_text op_name vars
                k 0%Z hdrs s0
                (attempt_loop_bounded backend platform endpoint query_text op_name vars k))
      as (Hw & l & Hl & _).
    cbn [log advance _last_request_time] in Hl, Hw.
    split; [rewrite Hw; exact Hwm|]. intros t.
    erewrite new_events_app; [|rewrite Hl, Hl0, <- !app_assoc; reflexivity].
    rewrite sent_times_app, Ht0. cbn. intros [= <-]. reflexivity.
Qed.
End ExecutorEdges.

(** The first request of an executor call goes out at least
    [rate_limit_delay] after the previous watermark, and the watermark the
    call leaves behind is the time of that request. *)
Theorem first_request_waits_for_the_rate_limit `{PyRuntime} (backend : Backend)
    (platform query_text : string) (vars : json) (op_name : string)
    (s : State) (t : Q) :
  let s' := snd (_execute_query backend platform query_text vars op_name s) in
  head (sent_times (new_events s s')) = Some t →
  (_last_request_time s + MMConfig.rate_limit_delay (config s) <= t)%Q
  ∧ (clock s <= t)%Q
  ∧ _last_request_time s' = t.
Proof.
  cbv zeta. intros Hfirst.
  destruct (execute_query_first_sent backend platform query_text vars op_name s)
    as [Hwm Ht].
  rewrite (Ht t Hfirst).
  destruct (rate_limit_waits s) as [Hdelay Hclock].
  split; [exact Hdelay|]. split; [exact Hclock | exact Hwm].
Qed.

Lemma first_request_waits_for_the_rate_limit_shop :
  (_last_request_time client0 + MMConfig.rate_limit_delay (config client0) <= 100)%Q
  ∧ (clock client0 <= 100)%Q
  ∧ _last_request_time
      (snd (@_execute_query simple_runtime backend_shop "b2c" PRODUCT_SEARCH_QUERY
              (search_variables "gao" 1 24) "ProductSearch" client0)) = 100%Q.
Proof.
  apply (@first_request_waits_for_the_rate_limit simple_runtime backend_shop
           "b2c" PRODUCT_SEARCH_QUERY (search_variables "gao" 1 24) "ProductSearch"
           client0 100%Q).
  vm_compute. reflexivity.
Defined.

(** Two executor calls in a row: the first request of the second call goes
    out at least [rate_limit_delay] after the first request of the first
    call, however long the first call went on retrying. *)
Theorem consecutive_calls_are_spaced `{PyRuntime} (backend : Backend)
    (platform1 query1 : string) (vars1 : json) (op1 : string)
    (platform2 query2 : string) (vars2 : json) (op2 : string)
    (s : State) (t1 t2 : Q) :
  let s1 := snd (_execute_query backend platform1 query1 vars1 op1 s) in
  let s2 := snd (_execute_query backend platform2 query2 vars2 op2 s1) in
  head (sent_times (new_events s s1)) = Some t1 →
  head (sent_times (new_events s1 s2)) = Some t2 →
  (t1 + MMConfig.rate_limit_delay (config s1) <= t2)%Q.
Proof.
  cbv zeta. intros H1 H2.
  destruct (execute_query_first_sent backend platform1 query1 vars1 op1 s) as [Hwm1 Ht1].
  destruct (execute_query_first_sent backend platform2 query2 vars2 op2
              (snd (_execute_query backend platform1 query1 vars1 op1 s))) as [_ Ht2].
  rewrite (Ht2 t2 H2), (Ht1 t1 H1), <- Hwm1.
  apply rate_limit_waits.
Qed.

Lemma consecutive_calls_are_spaced_shop :
  (100 + MMConfig.rate_limit_delay
           (config (snd (@_execute_query simple_runtime backend_shop "b2c"
                           PRODUCT_SEARCH_QUERY (search_variables "gao" 1 24)
                           "ProductSearch" client0)))
   <= 101.00)%Q.
Proof.
  apply (@consecutive_calls_are_spaced simple_runtime backend_shop
           "b2c" PRODUCT_SEARCH_QUERY (search_variables "gao" 1 24) "ProductSearch"
           "b2b" PRODUCT_SEARCH_QUERY (search_variables "gao" 1 24) "ProductSearch"
           client0 100%Q 101.00%Q).
  - vm_compute. reflexivity.
  - vm_compute. reflexivity.
Defined.



(** With a retry budget of zero or less the executor sends nothing and
    returns an absent result; the rate limiter has still run. *)
Theorem no_budget_no_request `{PyRuntime} (backend : Backend)
    (platform query_text : string) (vars : json) (op_name : string) (s : State) :
  (MMConfig.retry_attempts (config s) <= 0)%Z →
  _execute_query backend platform query_text vars op_name s
  = (Ok None, snd (_rate_limit s))
  ∧ sent_requests (new_events s (snd (_rate_limit s))) = [].
Proof.
  intros Hbudget. rewrite execute_query_unfold. cbv zeta.
  replace (Z.to_nat (MMConfig.retry_attempts (config s))) with 0%nat by lia.
  split; [reflexivity|].
  destruct (rate_limit_sends_nothing s) as (l0 & Hl0 & Hs0 & _).
  rewrite (new_events_app _ _ _ Hl0). exact Hs0.
Qed.

Lemma no_budget_no_request_zero :
  @_execute_query simple_runtime backend_shop "b2c" PRODUCT_SEARCH_QUERY
    (search_variables "gao" 1 24) "ProductSearch" (with_retry_attempts 0 client0)
  = (Ok None, snd (_rate_limit (with_retry_attempts 0 client0)))
  ∧ sent_requests (new_events (with_retry_attempts 0 client0)
                     (snd (_rate_limit (with_retry_attempts 0 client0)))) = [].
Proof.
  apply (@no_budget_no_request simple_runtime backend_shop). vm_compute. discriminate.
Defined.

(** When the business backend answers the first attempt with an
    authorization error and the re-authentication does not succeed, the
    call ends there with an absent result: no further attempt is made. *)
Theorem failed_reauthentication_ends_the_call `{PyRuntime} (backend : Backend)
    (query_text : string) (vars : json) (op_name : string)
    (s s2 : State) (e1 : json) :
  let s0 := snd (_rate_limit s) in
  let req0 := query_request (PlatformConfig.endpoint (MMConfig.b2b (config s0)))
                query_text op_name vars
                (b2b_headers (config s0) (b2b_token s0)) (config s0) in
  let s1 := advance (latency (backend (log s0) req0)) (Sent (clock s0) req0) s0 in
  (0 < MMConfig.retry_attempts (config s))%Z →
  outcome (backend (log s0) req0) = Body e1 →
  authorization_error e1 →
  authenticate_b2b backend None None s1 = (Ok false, s2) →
  _execute_query backend "b2b" query_text vars op_name s = (Ok None, s2).
Proof.
  cbv zeta. intros Hbudget Hout (Hin & errors & errs & Hget & Hiter & Hany) Hauth.
  rewrite execute_query_unfold. cbv zeta.
  cbn [String.eqb Ascii.eqb Bool.eqb andb].
  destruct (Z.to_nat (MMConfig.retry_attempts (config s))) as [|k] eqn:Hk; [lia|].
  cbn [attempt_loop]. munfold. cbv beta iota zeta.
  rewrite Hout. cbv beta iota. rewrite Hin. cbv beta iota. rewrite Hget.
  cbv beta iota. cbn [String.eqb Ascii.eqb Bool.eqb andb]. rewrite Hiter.
  cbv beta iota. rewrite Hany, Hauth. reflexivity.
Qed.

Lemma failed_reauthentication_ends_the_call_anonymous :
  fst (@_execute_query simple_runtime backend_auth "b2b" PRODUCT_SEARCH_QUERY
         (search_variables "gao" 1 24) "ProductSearch" client_anonymous) = Ok None.
Proof.
  set (s0 := snd (_rate_limit client_anonymous)).
  set (req0 := @query_request "https://mmpro.vn/graphql" PRODUCT_SEARCH_QUERY
                 "ProductSearch" (search_variables "gao" 1 24)
                 (@b2b_headers simple_runtime (config s0) (b2b_token s0)) (config s0)).
  set (s1 := advance (latency (backend_auth (log s0) req0)) (Sent (clock s0) req0) s0).
  rewrite (@failed_reauthentication_ends_the_call simple_runtime backend_auth
             PRODUCT_SEARCH_QUERY (search_variables "gao" 1 24) "ProductSearch"
             client_anonymous s1
             (JDict [("errors",
                JList [JDict [("message", JStr "The current customer is not authorized.");
                              ("extensions",
                               JDict [("category", JStr "graphql-authorization")])]])])).
  - reflexivity.
  - reflexivity.
  - reflexivity.
  - split; [reflexivity|].
    eexists _, _. split; [reflexivity|]. split; [reflexivity|].
    vm_compute. reflexivity.
  - vm_compute. reflexivity.
Defined.

(** ** api_client.py: what a successful search returns *)

Ltac invert_run Hrun :=
  repeat match type of Hrun with
         | context [match ?x with _ => _ end] =>
             lazymatch x with
             | context [match _ with _ => _ end] => fail
             | _ => destruct x eqn:?; try discriminate Hrun
             end
         end.

Lemma mapM_ok_Forall {A B : Type} (f : A → M B) (Q : State → B → Prop)
    (l : list A) (s s' : State) (ys : list B) :
  (∀ x y s1 s2, f x s1 = (Ok y, s2) → s2 = s1 ∧ Q s1 y) →
  mapM f l s = (Ok ys, s') →
  s' = s ∧ Forall (Q s) ys ∧ length ys = length l.
Proof.
  intros Hf. revert ys s'. induction l as [|x l IH]; intros ys s' Hrun; cbn in Hrun.
  - injection Hrun as <- <-. repeat split. constructor.
  - unfold mbind, M_bind in Hrun.
    destruct (f x s) as [[y|e] s1] eqn:Hx; [|discriminate].
    destruct (Hf _ _ _ _ Hx) as [-> Hy].
    destruct (mapM f l s) as [[ys'|e] s2] eqn:Hl; [|discriminate].
    destruct (IH ys' s2 eq_refl) as (-> & Hys & Hlen).
    cbn in Hrun. injection Hrun as <- <-.
    split; [reflexivity|]. split; [constructor; assumption | cbn; congruence].
Qed.

Section SearchResults.
Context `{PyRuntime} (backend : Backend).

(** A product that [_parse_product] returns carries the platform it was
    parsed for, the time of parsing, and a discount that is its regular
    price minus its price. *)
Lemma parse_product_ok (item : json) (platform : string) (s s' : State) (p : Product.t) :
  _parse_product item platform s = (Ok p, s') →
  s' = s
  ∧ (Product.platform p = Some platform
     ∧ PriceRange.discount_amount (Product.price_range p)
       = (Product.regular_price p - Product.price p)%Q
     ∧ Product.scraped_at p = clock s).
Proof.
  unfold _parse_product, Product_init, time_time. munfold.
  unfold mbind, res_bind, mret, res_ret, validate. intros Hrun.
  invert_run Hrun;
    (destruct (mapM _ _) as [categories|?]; [|discriminate Hrun]);
    invert_run Hrun; simplify_eq; repeat split.
Qed.
End SearchResults.

Lemma bind_inv {A B : Type} (m : M A) (f : A → M B) (s s' : State) (b : B) :
  (m ≫= f) s = (Ok b, s') → ∃ a s1, m s = (Ok a, s1) ∧ f a s1 = (Ok b, s').
Proof.
  unfold mbind, M_bind. destruct (m s) as [[a|e] s1]; [|discriminate].
  intros Hf. eauto.
Qed.

Lemma lift_inv {A : Type} (r : res A) (s s' : State) (a : A) :
  lift r s = (Ok a, s') → r = Ok a ∧ s' = s.
Proof. unfold lift. intros [= -> ->]. split; reflexivity. Qed.

Lemma res_bind_inv {A B : Type} (r : res A) (f : A → res B) (b : B) :
  r ≫= f = Ok b → ∃ a, r = Ok a ∧ f a = Ok b.
Proof. destruct r as [a|e]; [|discriminate]. cbn. eauto. Qed.

(** What a search that returns a result went through: the executor
    returned a response with a products payload, whose items were mapped
    one by one, and the result was built from the mapped products. *)
Lemma search_products_ok_inv `{PyRuntime} (backend : Backend)
    (search_term platform : string) (page page_size : Z) (sort_by : string)
    (s s' : State) (r : SearchResult.t) :
  search_products backend search_term platform page page_size sort_by s
  = (Ok (Some r), s') →
  ∃ result pd items entries s1,
    _execute_query backend platform PRODUCT_SEARCH_QUERY
      (search_variables search_term page page_size) "ProductSearch" s
    = (Ok (Some result), s1)
    ∧ products_payload (Some result) = Some pd
    ∧ py_getitem pd "items" = Ok items
    ∧ py_iter items = Ok entries
    ∧ mapM (fun item => _parse_product item platform) entries s1
      = (Ok (SearchResult.products r), s')
    ∧ SearchResult.current_page r = page
    ∧ SearchResult.platform r = platform.
Proof.
  intros Hrun. unfold search_products in Hrun. cbv zeta in Hrun.
  apply bind_inv in Hrun as (result & s1 & Hexec & Hrun).
  destruct result as [result|]; [|discriminate].
  destruct (negb (py_truthy result)); [discriminate|].
  apply bind_inv in Hrun as (has_data & ? & [Hdata ->]%lift_inv & Hrun).
  destruct has_data; [|discriminate]. cbn [negb] in Hrun.
  apply bind_inv in Hrun as (has_products & ? & [Hprod ->]%lift_inv & Hrun).
  destruct has_products; [|discriminate]. cbn [negb] in Hrun.
  apply bind_inv in Hrun as (pd & ? & [Hpd ->]%lift_inv & Hrun).
  apply bind_inv in Hrun as (entries & ? & [Hitems ->]%lift_inv & Hrun).
  apply bind_inv in Hrun as (products & s2 & Hmap & Hrun).
  apply bind_inv in Hrun as (tc & ? & [Htc ->]%lift_inv & Hrun).
  apply bind_inv in Hrun as (tp & ? & [Htp ->]%lift_inv & Hrun).
  apply bind_inv in Hrun as (r' & ? & [Hinit ->]%lift_inv & Hrun).
  injection Hrun as <- <-.
  unfold SearchResult_init in Hinit.
  apply res_bind_inv in Hinit as (tc' & _ & Hinit).
  apply res_bind_inv in Hinit as (tp' & _ & Hinit).
  injection Hinit as <-. cbn.
  apply res_bind_inv in Hpd as (d & Hd & Hpd).
  apply res_bind_inv in Hitems as (items & Hits & Hiter).
  exists result, pd, items, entries, s1.
  split; [exact Hexec|]. split; [|auto].
  unfold products_payload.
  destruct result as [| | | | | |kvs]; try discriminate Hd.
  unfold py_getitem in Hd. destruct (assoc "data" kvs) as [dv|]; [|discriminate].
  injection Hd as ->.
  destruct d as [| | | | | |dk]; try discriminate Hpd.
  unfold py_getitem in Hpd. destruct (assoc "products" dk); [|discriminate].
  injection Hpd as ->. reflexivity.
Qed.

(** Mapping the items of a response changes nothing and gives one product
    per item, each tagged with the platform and with a discount equal to
    its regular price minus its price. *)
Lemma parse_products_ok `{PyRuntime} (platform : string) (entries : list json)
    (s s' : State) (products : list Product.t) :
  mapM (fun item => _parse_product item platform) entries s = (Ok products, s') →
  s' = s
  ∧ Forall (fun p => Product.platform p = Some platform
                     ∧ PriceRange.discount_amount (Product.price_range p)
                       = (Product.regular_price p - Product.price p)%Q)
           products
  ∧ length products = length entries.
Proof.
  intros Hmap.
  apply (mapM_ok_Forall _
           (fun s p => Product.platform p = Some platform
                       ∧ PriceRange.discount_amount (Product.price_range p)
                         = (Product.regular_price p - Product.price p)%Q
                       ∧ Product.scraped_at p = clock s)) in Hmap
    as (-> & Hall & Hlen); [|intros x y sa sb; apply parse_product_ok].
  split; [reflexivity|]. split; [|exact Hlen].
  eapply Forall_impl; [exact Hall|]. intros p (Hp & Hd & _). auto.
Qed.

(** A search that returns a result returns one for the page and the
    platform that were asked for, with one product per entry of the
    [items] of the response, each tagged with the platform and with a
    discount equal to its regular price minus its price. *)
Theorem search_products_result_shape `{PyRuntime} (backend : Backend)
    (search_term platform : string) (page page_size : Z) (sort_by : string)
    (s s' : State) (r : SearchResult.t) :
  search_products backend search_term platform page page_size sort_by s
  = (Ok (Some r), s') →
  SearchResult.current_page r = page
  ∧ SearchResult.platform r = platform
  ∧ Forall (fun p => Product.platform p = Some platform
                     ∧ PriceRange.discount_amount (Product.price_range p)
                       = (Product.regular_price p - Product.price p)%Q)
           (SearchResult.products r)
  ∧ ∃ result pd items entries,
      _execute_query backend platform PRODUCT_SEARCH_QUERY
        (search_variables search_term page page_size) "ProductSearch" s
      = (Ok (Some result), s')
      ∧ products_payload (Some result) = Some pd
      ∧ py_getitem pd "items" = Ok items
      ∧ py_iter items = Ok entries
      ∧ length (SearchResult.products r) = length entries.
Proof.
  intros Hrun.
  apply search_products_ok_inv in Hrun
    as (result & pd & items & entries & s1 & Hexec & Hpd & Hitems & Hiter
        & Hmap & Hpage & Hplatform).
  apply parse_products_ok in Hmap as (-> & Hall & Hlen).
  split; [exact Hpage|]. split; [exact Hplatform|]. split; [exact Hall|].
  exists result, pd, items, entries.
  split; [exact Hexec|]. split; [exact Hpd|]. split; [exact Hitems|].
  split; [exact Hiter | exact Hlen].
Qed.

Lemma search_products_result_shape_shop :
  ∃ r, fst (@search_products simple_runtime backend_shop "gao" "b2b" 1 20 "relevance" client0)
       = Ok (Some r)
       ∧ SearchResult.current_page r = 1%Z
       ∧ SearchResult.platform r = "b2b"
       ∧ length (SearchResult.products r) = 3.
Proof.
  set (run := @search_products simple_runtime backend_shop "gao" "b2b" 1 20 "relevance" client0).
  set (r := match fst run with Ok (Some r) => r
            | _ => {| SearchResult.products := []; SearchResult.total_count := 0;
                      SearchResult.total_pages := 0; SearchResult.current_page := 0;
                      SearchResult.platform := "" |} end).
  destruct (@search_products_result_shape simple_runtime backend_shop "gao" "b2b" 1 20
              "relevance" client0 (snd run) r) as (Hpage & Hplat & _ & _).
  - vm_compute. reflexivity.
  - exists r. split; [vm_compute; reflexivity|].
    split; [exact Hpage|]. split; [exact Hplat|]. vm_compute. reflexivity.
Defined.

(** ** api_client.py: the search over all pages *)

#[global] Instance same_budget_refl : Reflexive same_budget.
Proof. intros s. reflexivity. Qed.

#[global] Instance same_budget_trans : Transitive same_budget.
Proof. intros s1 s2 s3 H12 H23. unfold same_budget in *. congruence. Qed.

Lemma keeps_same_budget {A : Type} (m : M A) : keeps m → respects same_budget m.
Proof. intros Hm s. destruct (Hm s) as (_ & Hb & _). exact Hb. Qed.

Section AllPagesRuns.
Context `{PyRuntime} (backend : Backend).
Variables (search_term platform : string).

Lemma attempt_loop_same_budget (endpoint query_text op_name : string) (vars : json)
    (k : nat) :
  ∀ attempt hdrs,
    respects same_budget
      (attempt_loop backend k attempt platform endpoint query_text op_name vars hdrs).
Proof.
  induction k as [|k IH]; intros attempt hdrs; cbn [attempt_loop].
  - respects_step.
  - repeat first
      [ apply IH
      | apply keeps_same_budget;
        first [ apply keeps_sleep | apply authenticate_b2b_keeps
              | apply get_b2b_headers_keeps ]
      | (intros s; reflexivity)
      | respects_step ].
Qed.

(** A search leaves the retry budget alone and adds at most that many
    attempts to the log. *)
Lemma search_products_budget (page page_size : Z) (sort_by : string) (s : State) :
  let s' := snd (search_products backend search_term platform page page_size sort_by s) in
  same_budget s s'
  ∧ ∃ l, log s' = log s ++ l
         ∧ (attempts_made l <= Z.to_nat (MMConfig.retry_attempts (config s)))%nat.
Proof.
  cbv zeta. rewrite search_products_state. split.
  - rewrite execute_query_unfold. cbv zeta.
    destruct (rate_limit_run s) as (s0 & Hrl & _ & Hcfg & _).
    rewrite Hrl. cbn [snd].
    transitivity s0; [unfold same_budget; rewrite Hcfg; reflexivity|].
    apply attempt_loop_same_budget.
  - destruct (execute_query_attempts backend platform PRODUCT_SEARCH_QUERY
                (search_variables search_term page page_size) "ProductSearch" s)
      as (l & Hl & Ha & _).
    exists l. split; [exact Hl | exact Ha].
Qed.

Lemma cap_not_reached (m page : Z) :
  (0 < m)%Z → cap_reached (Some m) page = false → (page < m)%Z.
Proof.
  unfold cap_reached. intros Hm Hcap.
  destruct (m =? 0)%Z eqn:E0; [lia|]. cbn in Hcap. lia.
Qed.

(** Under a positive cap the loop ends by itself: a run with more
    iterations than pages are left up to the cap does not depend on how
    many more. *)
Lemma search_all_pages_from_capped (m : Z) (fuel : nat) :
  (0 < m)%Z →
  ∀ (fuel' : nat) (page : Z) (all_products : list Product.t) (s : State),
    (Z.to_nat (m - page) < fuel)%nat → (Z.to_nat (m - page) < fuel')%nat →
    search_all_pages_from backend fuel search_term platform (Some m) page all_products s
    = search_all_pages_from backend fuel' search_term platform (Some m) page all_products s
    ∧ fst (search_all_pages_from backend fuel search_term platform (Some m) page
             all_products s) ≠ Ok None.
Proof.
  intros Hm. induction fuel as [|fuel IH]; intros fuel' page acc s Hf Hf'; [lia|].
  destruct fuel' as [|fuel']; [lia|].
  cbn [search_all_pages_from]. unfold mbind, M_bind.
  destruct (search_products backend search_term platform page 50 "relevance" s)
    as [[[result|]|e] s1]; [|split; [reflexivity | discriminate]..].
  destruct (SearchResult.products result) as [|p ps];
    [split; [reflexivity | discriminate]|].
  destruct (cap_reached (Some m) page) eqn:Hcap;
    [split; [reflexivity | discriminate]|].
  destruct (SearchResult.total_pages result <=? page)%Z;
    [split; [reflexivity | discriminate]|].
  apply cap_not_reached in Hcap; [|exact Hm].
  apply IH; lia.
Qed.

(** The attempts of a capped run: at most the retry budget for each page
    up to the cap. *)
Lemma search_all_pages_from_budget (m : Z) (fuel : nat) :
  (0 < m)%Z →
  ∀ (page : Z) (all_products : list Product.t) (s : State),
    let s' := snd (search_all_pages_from backend fuel search_term platform (Some m)
                     page all_products s) in
    same_budget s s'
    ∧ ∃ l, log s' = log s ++ l
           ∧ (attempts_made l
              <= Z.to_nat (Z.max 1 (m - page + 1))
                 * Z.to_nat (MMConfig.retry_attempts (config s)))%nat.
Proof.
  intros Hm. induction fuel as [|fuel IH]; intros page acc s; cbv zeta.
  - cbn. split; [reflexivity|]. exists []. split; [symmetry; apply app_nil_r|].
    cbn. lia.
  - cbn [search_all_pages_from]. unfold mbind, M_bind.
    destruct (search_products_budget page 50 "relevance" s) as (Hb & l & Hl & Ha).
    assert (Hone : same_budget s
                     (snd (search_products backend search_term platform page 50
                             "relevance" s))
                   ∧ ∃ l, log (snd (search_products backend search_term platform
                                      page 50 "relevance" s)) = log s ++ l
                          ∧ (attempts_made l
                             <= Z.to_nat (Z.max 1 (m - page + 1))
                                * Z.to_nat (MMConfig.retry_attempts (config s)))%nat).
    { split; [exact Hb|]. exists l. split; [exact Hl|]. nia. }
    destruct (search_products backend search_term platform page 50 "relevance" s)
      as [[[result|]|e] s1]; cbn [snd] in *; [|exact Hone..].
    destruct (SearchResult.products result) as [|p ps]; [exact Hone|].
    destruct (cap_reached (Some m) page) eqn:Hcap; [exact Hone|].
    destruct (SearchResult.total_pages result <=? page)%Z; [exact Hone|].
    apply cap_not_reached in Hcap; [|exact Hm].
    destruct (IH (page + 1)%Z (acc ++ p :: ps) s1) as (Hb' & l' & Hl' & Ha').
    split; [transitivity s1; assumption|].
    exists (l ++ l'). split; [rewrite Hl', Hl, app_assoc; reflexivity|].
    rewrite attempts_made_app. unfold same_budget in Hb. rewrite Hb in Ha'.
    replace (Z.to_nat (Z.max 1 (m - page + 1)))
      with (S (Z.to_nat (Z.max 1 (m - (page + 1) + 1)))) by lia.
    cbn [Nat.mul]. lia.
Qed.
End AllPagesRuns.

(** With a positive [max_pages] the loop of [search_all_pages] ends within
    [max_pages] rounds: a run that is given that many rounds returns or
    raises, and every longer run is the same run. *)
Theorem search_all_pages_ends_at_the_cap `{PyRuntime} (backend : Backend)
    (search_term platform : string) (max_pages : Z) (fuel : nat) (s : State) :
  (0 < max_pages)%Z → (Z.to_nat max_pages <= fuel)%nat →
  search_all_pages backend fuel search_term platform (Some max_pages) s
  = search_all_pages backend (Z.to_nat max_pages) search_term platform (Some max_pages) s
  ∧ fst (search_all_pages backend fuel search_term platform (Some max_pages) s)
    ≠ Ok None.
Proof.
  intros Hm Hfuel. unfold search_all_pages.
  apply search_all_pages_from_capped; [exact Hm | lia | lia].
Qed.

Lemma search_all_pages_ends_at_the_cap_shop :
  (@search_all_pages simple_runtime backend_shop 7 "gao" "b2c" (Some 2%Z) client0
   = @search_all_pages simple_runtime backend_shop 2 "gao" "b2c" (Some 2%Z) client0)
  ∧ fst (@search_all_pages simple_runtime backend_shop 7 "gao" "b2c" (Some 2%Z) client0)
    ≠ Ok None.
Proof.
  apply (@search_all_pages_ends_at_the_cap simple_runtime backend_shop "gao" "b2c" 2 7 client0);
    [reflexivity | vm_compute; lia].
Defined.

(** A search capped at [max_pages] pages makes at most
    [max_pages * retry_attempts] attempts, however the backend answers. *)
Theorem search_all_pages_request_budget `{PyRuntime} (backend : Backend)
    (search_term platform : string) (max_pages : Z) (fuel : nat) (s : State) :
  (0 < max_pages)%Z →
  (attempts_made
     (new_events s
        (snd (search_all_pages backend fuel search_term platform (Some max_pages) s)))
   <= Z.to_nat max_pages * Z.to_nat (MMConfig.retry_attempts (config s)))%nat.
Proof.
  intros Hm. unfold search_all_pages.
  destruct (search_all_pages_from_budget backend search_term platform max_pages fuel
              Hm 1%Z [] s) as (_ & l & Hl & Ha).
  rewrite (new_events_app _ _ _ Hl).
  replace (Z.to_nat (Z.max 1 (max_pages - 1 + 1))) with (Z.to_nat max_pages) in Ha by lia.
  exact Ha.
Qed.

Lemma search_all_pages_request_budget_down :
  (attempts_made
     (new_events client0
        (snd (@search_all_pages simple_runtime backend_down 5 "gao" "b2c" (Some 2%Z) client0)))
   <= 6)%nat.
Proof.
  apply (@search_all_pages_request_budget simple_runtime backend_down "gao" "b2c" 2 5 client0).
  reflexivity.
Defined.

(** A cap of 0 pages is no cap: [max_pages=0] runs as [max_pages=None]. *)
Theorem search_all_pages_zero_cap_is_no_cap `{PyRuntime} (backend : Backend)
    (search_term platform : string) (fuel : nat) (s : State) :
  search_all_pages backend fuel search_term platform (Some 0%Z) s
  = search_all_pages backend fuel search_term platform None s.
Proof.
  unfold search_all_pages. generalize 1%Z, (@nil Product.t). revert s.
  induction fuel as [|fuel IH]; intros s page acc; [reflexivity|].
  cbn [search_all_pages_from]. unfold mbind, M_bind.
  destruct (search_products backend search_term platform page 50 "relevance" s)
    as [[[result|]|e] s1]; [|reflexivity..].
  destruct (SearchResult.products result) as [|p ps]; [reflexivity|].
  cbn [cap_reached Z.eqb negb andb].
  destruct (SearchResult.total_pages result <=? page)%Z; [reflexivity|].
  apply IH.
Qed.

(** Every product that [search_all_pages] returns is tagged with the
    platform that was searched and carries a discount equal to its regular
    price minus its price. *)
Theorem search_all_pages_products_tagged `{PyRuntime} (backend : Backend)
    (search_term platform : string) (max_pages : option Z) (fuel : nat)
    (s : State) (products : list Product.t) :
  fst (search_all_pages backend fuel search_term platform max_pages s)
  = Ok (Some products) →
  Forall (fun p => Product.platform p = Some platform
                   ∧ PriceRange.discount_amount (Product.price_range p)
                     = (Product.regular_price p - Product.price p)%Q)
         products.
Proof.
  unfold search_all_pages.
  assert (Hacc : Forall (fun p => Product.platform p = Some platform
                   ∧ PriceRange.discount_amount (Product.price_range p)
                     = (Product.regular_price p - Product.price p)%Q) [])
    by constructor.
  revert Hacc. generalize 1%Z, (@nil Product.t). revert s.
  induction fuel as [|fuel IH]; intros s page acc Hacc; [discriminate|].
  cbn [search_all_pages_from]. unfold mbind, M_bind.
  destruct (search_products backend search_term platform page 50 "relevance" s)
    as [[[result|]|e] s1] eqn:Hsearch; cbn [fst];
    [| intros [= <-]; exact Hacc | discriminate].
  apply search_products_ok_inv in Hsearch
    as (? & ? & ? & ? & s2 & _ & _ & _ & _ & Hmap & _).
  apply parse_products_ok in Hmap as (_ & Hall & _).
  destruct (SearchResult.products result) as [|p ps] eqn:Hps;
    [intros [= <-]; exact Hacc|].
  assert (Hacc' : Forall (fun p => Product.platform p = Some platform
                   ∧ PriceRange.discount_amount (Product.price_range p)
                     = (Product.regular_price p - Product.price p)%Q)
                    (acc ++ p :: ps))
    by (apply Forall_app; split; assumption).
  destruct (cap_reached max_pages page); [intros [= <-]; exact Hacc'|].
  destruct (SearchResult.total_pages result <=? page)%Z;
    [intros [= <-]; exact Hacc'|].
  apply IH. exact Hacc'.
Qed.

Lemma search_all_pages_products_tagged_shop :
  ∃ products,
    fst (@search_all_pages simple_runtime backend_shop 3 "gao" "b2b" None client0)
    = Ok (Some products)
    ∧ length products = 3
    ∧ Forall (fun p => Product.platform p = Some "b2b"
                       ∧ PriceRange.discount_amount (Product.price_range p)
                         = (Product.regular_price p - Product.price p)%Q)
             products.
Proof.
  set (run := @search_all_pages simple_runtime backend_shop 3 "gao" "b2b" None client0).
  set (products := match fst run with Ok (Some l) => l | _ => [] end).
  exists products. split; [vm_compute; reflexivity|]. split; [vm_compute; reflexivity|].
  apply (@search_all_pages_products_tagged simple_runtime backend_shop "gao" "b2b" None 3
           client0 products).
  vm_compute. reflexivity.
Defined.

(** ** api_client.py: the price comparison *)

Lemma by_sku_snoc (products : list Product.t) (q : Product.t) :
  by_sku (products ++ [q]) = <[Product.sku q := q]> (by_sku products).
Proof. unfold by_sku. rewrite foldl_app. reflexivity. Qed.

Lemma by_sku_lookup_None (products : list Product.t) (k : string) :
  by_sku products !! k = None ↔ k ∉ Product.sku <$> products.
Proof.
  induction products as [|q products IH] using rev_ind.
  - split; [intros _; apply not_elem_of_nil | intros _; apply lookup_empty].
  - rewrite by_sku_snoc, fmap_app, not_elem_of_app, lookup_insert_None, IH.
    cbn. rewrite not_elem_of_cons. split.
    + intros [Hk Hne]. split; [exact Hk|]. split; [congruence | apply not_elem_of_nil].
    + intros [Hk [Hne _]]. split; [exact Hk | congruence].
Qed.

(** When several business products share a sku, the lookup holds the last
    of them: that is the one a consumer product is compared with. *)
Theorem by_sku_last_wins (products : list Product.t) (k : string) :
  by_sku products !! k = last (filter (fun p => Product.sku p = k) products).
Proof.
  induction products as [|q products IH] using rev_ind; [apply lookup_empty|].
  rewrite by_sku_snoc, filter_app.
  destruct (decide (Product.sku q = k)) as [Heq|Hne].
  - rewrite filter_cons_True by exact Heq. cbn.
    rewrite last_snoc, <- Heq. apply lookup_insert_eq.
  - rewrite filter_cons_False by exact Hne. cbn.
    rewrite app_nil_r, lookup_insert_ne by exact Hne. exact IH.
Qed.

Lemma compare_one_fields (m : gmap string Product.t) (p : Product.t)
    (c : PriceComparison.t) :
  compare_one m p = Some c →
  PriceComparison.sku c = Product.sku p
  ∧ PriceComparison.b2c_price c = Product.price p
  ∧ PriceComparison.difference c
    = (PriceComparison.b2c_price c - PriceComparison.b2b_price c)%Q
  ∧ PriceComparison.savings_percentage c
    = (if Qlt_bool 0 (PriceComparison.b2c_price c)
       then PriceComparison.difference c / PriceComparison.b2c_price c * 100
       else 0)%Q.
Proof.
  unfold compare_one. destruct (m !! Product.sku p) as [b|]; [|discriminate].
  intros [= <-]. cbn. repeat split.
Qed.

(** The comparisons are exactly the consumer products whose sku the
    business result has, one comparison for each of them. *)
Theorem compare_results_complete (b2c_result b2b_result : SearchResult.t) :
  PriceComparison.sku <$> compare_results (Some b2c_result) (Some b2b_result)
  ≡ₚ filter (fun k => k ∈ Product.sku <$> SearchResult.products b2b_result)
            (Product.sku <$> SearchResult.products b2c_result).
Proof.
  cbn [compare_results]. rewrite sort_by_savings_Permutation.
  induction (SearchResult.products b2c_result) as [|p ps IH]; [reflexivity|].
  cbn [omap list_omap fmap list_fmap].
  destruct (compare_one _ p) as [c|] eqn:Hone.
  - assert (Hin : Product.sku p ∈ Product.sku <$> SearchResult.products b2b_result).
    { destruct (decide (Product.sku p ∈ Product.sku <$> SearchResult.products b2b_result))
        as [Hin|Hout]; [exact Hin|].
      apply by_sku_lookup_None in Hout. unfold compare_one in Hone.
      rewrite Hout in Hone. discriminate. }
    rewrite filter_cons_True by exact Hin.
    apply compare_one_fields in Hone as (Hsku & _).
    cbn [fmap list_fmap]. rewrite Hsku. f_equiv. exact IH.
  - assert (Hout : Product.sku p ∉ Product.sku <$> SearchResult.products b2b_result).
    { apply by_sku_lookup_None. unfold compare_one in Hone.
      destruct (by_sku _ !! Product.sku p); [discriminate | reflexivity]. }
    rewrite filter_cons_False by exact Hout. exact IH.
Qed.

(** The figures of a comparison: the difference is the consumer price
    minus the business price, the savings percentage is that difference
    relative to the consumer price, or 0 for a consumer price that is not
    positive, and it does not exceed 100 when the business price is not
    negative. *)
Theorem comparison_figures (r1 r2 : option SearchResult.t) :
  Forall (fun c =>
            PriceComparison.difference c
            = (PriceComparison.b2c_price c - PriceComparison.b2b_price c)%Q
            ∧ PriceComparison.savings_percentage c
              = (if Qlt_bool 0 (PriceComparison.b2c_price c)
                 then PriceComparison.difference c / PriceComparison.b2c_price c * 100
                 else 0)%Q
            ∧ ((0 <= PriceComparison.b2b_price c)%Q →
               (PriceComparison.savings_percentage c <= 100)%Q))
         (compare_results r1 r2).
Proof.
  destruct r1 as [b2c_result|], r2 as [b2b_result|]; try constructor.
  cbn [compare_results]. rewrite sort_by_savings_Permutation.
  apply Forall_forall. intros c Hc.
  apply list_elem_of_omap in Hc as (p & _ & Hone).
  apply compare_one_fields in Hone as (_ & _ & Hd & Hs).
  split; [exact Hd|]. split; [exact Hs|].
  intros Hb2b. rewrite Hs.
  destruct (Qlt_bool 0 (PriceComparison.b2c_price c)) eqn:Hpos; [|lra].
  apply Qlt_bool_iff in Hpos.
  assert (Hq : (PriceComparison.difference c / PriceComparison.b2c_price c <= 1)%Q).
  { apply Qle_shift_div_r; [exact Hpos|]. rewrite Hd. lra. }
  set (x := (PriceComparison.difference c / PriceComparison.b2c_price c)%Q) in *.
  lra.
Qed.

(** ** server.py: the summary of a price comparison *)

Lemma filter_length_zero {A : Type} (f : A → bool) (l : list A) :
  length (List.filter f l) = 0%nat ↔ Forall (fun a => f a = false) l.
Proof.
  induction l as [|a l IH]; cbn.
  - split; [constructor | reflexivity].
  - destruct (f a) eqn:Hfa; cbn.
    + split; [discriminate | intros Hall; inversion Hall; congruence].
    + rewrite IH. split; [intros Hall; constructor; assumption|].
      intros Hall. inversion Hall. assumption.
Qed.

(** The average of the summary divides by the number of comparisons that
    are cheaper on the business platform: it raises [ZeroDivisionError]
    exactly when there are comparisons and none of them is cheaper there. *)
Theorem avg_savings_raises_iff (comparisons : list PriceComparison.t) :
  Server.avg_savings comparisons = None
  ↔ comparisons ≠ []
    ∧ Forall (fun c => (PriceComparison.difference c <= 0)%Q) comparisons.
Proof.
  destruct comparisons as [|c0 cs].
  - cbn. split; [discriminate | intros [Hne _]; contradiction].
  - unfold Server.avg_savings, Server.cheaper_on_b2b.
    set (l := c0 :: cs).
    destruct (length (List.filter _ l) =? 0)%nat eqn:Hlen.
    + apply Nat.eqb_eq, filter_length_zero in Hlen.
      split; [|reflexivity]. intros _. split; [discriminate|].
      eapply Forall_impl; [exact Hlen|].
      intros c Hc. apply Qlt_bool_false_iff. exact Hc.
    + split; [discriminate|]. intros [_ Hall].
      apply Nat.eqb_neq in Hlen. exfalso. apply Hlen.
      apply filter_length_zero.
      eapply Forall_impl; [exact Hall|].
      intros c Hc. apply Qlt_bool_false_iff. exact Hc.
Qed.

(** When both platforms list an article at the same price, the comparison
    is not empty and its summary raises. *)
Lemma avg_savings_raises_on_equal_prices :
  ∃ comparisons,
    fst (@compare_prices simple_runtime backend_same_price "gao" 20 client0)
    = Ok comparisons
    ∧ length comparisons = 1%nat
    ∧ Server.avg_savings comparisons = None.
Proof.
  set (run := @compare_prices simple_runtime backend_same_price "gao" 20 client0).
  set (comparisons := match fst run with Ok l => l | _ => [] end).
  exists comparisons. split; [vm_compute; reflexivity|].
  split; [vm_compute; reflexivity|].
  apply (proj2 (avg_savings_raises_iff comparisons)).
  split; [vm_compute; discriminate|].
  vm_compute. repeat constructor; discriminate.
Defined.

(** ** models.py: the discount of a price range *)

(** For a final price between 0 and a positive regular price, the discount
    percentage of the price range lies between 0 and 100, and it is 0 only
    when the two prices are equal. *)
Theorem discount_percentage_bounds (final regular : Price.t) :
  (0 <= Price.value final)%Q → (Price.value final <= Price.value regular)%Q →
  (0 < Price.value regular)%Q →
  let pr := PriceRange.init final regular None in
  (0 <= PriceRange.discount_percentage pr)%Q
  ∧ (PriceRange.discount_percentage pr <= 100)%Q
  ∧ (PriceRange.has_discount pr = true ↔ (0 < PriceRange.discount_percentage pr)%Q).
Proof.
  intros Hfinal Hle Hpos. cbv zeta.
  unfold PriceRange.discount_percentage, PriceRange.has_discount. cbn.
  apply Qlt_bool_iff in Hpos as Hb. rewrite Hb.
  set (d := (Price.value regular - Price.value final)%Q).
  assert (Hq0 : (0 <= d / Price.value regular)%Q).
  { apply Qle_shift_div_l; [exact Hpos|]. unfold d. lra. }
  assert (Hq1 : (d / Price.value regular <= 1)%Q).
  { apply Qle_shift_div_r; [exact Hpos|]. unfold d. lra. }
  assert (Hq2 : (0 < d)%Q ↔ (0 < d / Price.value regular)%Q).
  { split; intros Hd.
    - apply Qlt_shift_div_l; [exact Hpos|]. lra.
    - destruct (Qlt_le_dec 0 d) as [Hlt|Hge]; [exact Hlt|].
      assert (d / Price.value regular <= 0)%Q
        by (apply Qle_shift_div_r; [exact Hpos|]; lra).
      lra. }
  set (x := (d / Price.value regular)%Q) in *.
  split; [lra|]. split; [lra|].
  rewrite Qlt_bool_iff, Hq2. split; intros; lra.
Qed.

Lemma discount_percentage_bounds_sale :
  let pr := PriceRange.init {| Price.value := 40000; Price.currency := "VND" |}
                            {| Price.value := 45000; Price.currency := "VND" |} None in
  (0 <= PriceRange.discount_percentage pr)%Q
  ∧ (PriceRange.discount_percentage pr <= 100)%Q
  ∧ (PriceRange.has_discount pr = true ↔ (0 < PriceRange.discount_percentage pr)%Q).
Proof.
  apply (discount_percentage_bounds
           {| Price.value := 40000; Price.currency := "VND" |}
           {| Price.value := 45000; Price.currency := "VND" |});
    vm_compute; discriminate || reflexivity.
Defined.

(** ** stores.py: store codes and the directory *)

Lemma append_cons (c : ascii) (s t : string) :
  (String c s ++ t)%string = String c (s ++ t).
Proof. reflexivity. Qed.

Lemma append_empty_r (s : string) : (s ++ "")%string = s.
Proof.
  induction s as [|c s IH]; [reflexivity|]. rewrite append_cons, IH. reflexivity.
Qed.

(** A pattern that starts with a character that is no digit is not found
    in a run of digits. *)
Lemma replace_from_digits (a : ascii) (old new : string) (c rest : string) :
  is_digit a = false → all_digits c = true →
  replace_from (String a old) new 0 (c ++ rest)
  = (c ++ replace_from (String a old) new 0 rest)%string.
Proof.
  intros Ha. induction c as [|d c IH]; intros Hc; [reflexivity|].
  cbn in Hc. apply andb_true_iff in Hc as [Hd Hc].
  rewrite !append_cons. cbn [replace_from String.prefix].
  destruct (ascii_dec a d) as [->|Hne]; [congruence|].
  rewrite IH by exact Hc. reflexivity.
Qed.

Lemma append_nil_l (s : string) : ("" ++ s)%string = s.
Proof. reflexivity. Qed.

Lemma prefix_empty (s : string) : String.prefix "" s = true.
Proof. destruct s; reflexivity. Qed.

Ltac replace_digits :=
  repeat first
    [ rewrite append_cons
    | rewrite append_nil_l
    | rewrite prefix_empty
    | rewrite replace_from_digits by (assumption || reflexivity)
    | progress cbn ].

Lemma numeric_code_digits (c : string) :
  all_digits c = true → Store.numeric_code c = c.
Proof.
  intros Hc. unfold Store.numeric_code, str_replace.
  rewrite <- (append_empty_r c). replace_digits. reflexivity.
Qed.

Lemma numeric_code_b2c (c : string) :
  all_digits c = true → Store.numeric_code ("b2c_" ++ c ++ "_vi") = c.
Proof.
  intros Hc. unfold Store.numeric_code, str_replace.
  replace_digits. apply append_empty_r.
Qed.

Lemma numeric_code_b2b (c : string) :
  all_digits c = true → Store.numeric_code ("mm_" ++ c ++ "_vi") = c.
Proof.
  intros Hc. unfold Store.numeric_code, str_replace.
  replace_digits. apply append_empty_r.
Qed.

(** The three spellings of a store code are interchangeable: a store
    whose code is a run of digits, or that run wrapped as a consumer or as
    a business code, has the platform codes built around the digits, and
    [get_store] looks the digits up under any of the spellings. *)
Theorem store_code_spellings (c : string) (store : Store.t) :
  all_digits c = true →
  Store.code store ∈ [c; "b2c_" ++ c ++ "_vi"; "mm_" ++ c ++ "_vi"]%string →
  Store.get_b2c_store_code store = ("b2c_" ++ c ++ "_vi")%string
  ∧ Store.get_b2b_store_code store = ("mm_" ++ c ++ "_vi")%string
  ∧ StoreManager.get_store (Store.code store) = StoreManager.KNOWN_STORES !! c
  ∧ StoreManager.get_store (Store.get_b2c_store_code store)
    = StoreManager.KNOWN_STORES !! c
  ∧ StoreManager.get_store (Store.get_b2b_store_code store)
    = StoreManager.KNOWN_STORES !! c.
Proof.
  intros Hc Hcode.
  assert (Hnum : Store.numeric_code (Store.code store) = c).
  { repeat (apply elem_of_cons in Hcode as [-> | Hcode]).
    - apply numeric_code_digits. exact Hc.
    - apply numeric_code_b2c. exact Hc.
    - apply numeric_code_b2b. exact Hc.
    - apply elem_of_nil in Hcode. contradiction. }
  unfold StoreManager.get_store, Store.get_b2c_store_code, Store.get_b2b_store_code.
  rewrite Hnum, numeric_code_b2c, numeric_code_b2b by exact Hc.
  repeat split.
Qed.

Lemma store_code_spellings_fetched :
  let store := {| Store.code := "mm_20001_vi"; Store.name := "MM Mega Market Thang Long";
                  Store.region := None |} in
  Store.get_b2c_store_code store = "b2c_20001_vi"
  ∧ Store.get_b2b_store_code store = "mm_20001_vi"
  ∧ StoreManager.get_store (Store.code store) = StoreManager.KNOWN_STORES !! "20001"
  ∧ StoreManager.get_store (Store.get_b2c_store_code store)
    = StoreManager.KNOWN_STORES !! "20001"
  ∧ StoreManager.get_store (Store.get_b2b_store_code store)
    = StoreManager.KNOWN_STORES !! "20001".
Proof.
  apply (store_code_spellings "20001"
           {| Store.code := "mm_20001_vi"; Store.name := "MM Mega Market Thang Long";
              Store.region := None |}).
  - reflexivity.
  - right. right. left.
Defined.

(** A successful [update_config_store] writes the two platform codes of
    the store it resolved and nothing else: both written codes resolve
    back to that store, and the credentials, the timeout, the retry
    budget, the rate limit and the endpoints stay as they were. *)
Theorem update_config_store_success (config : MMConfig.t) (store_code : string)
    (store : Store.t) :
  StoreManager.get_store store_code = Some store →
  ∃ config',
    StoreManager.update_config_store config store_code = (true, config')
    ∧ PlatformConfig.store_code (MMConfig.b2c config')
      = ("b2c_" ++ Store.code store ++ "_vi")%string
    ∧ PlatformConfig.store_code (MMConfig.b2b config')
      = ("mm_" ++ Store.code store ++ "_vi")%string
    ∧ StoreManager.get_store (PlatformConfig.store_code (MMConfig.b2c config'))
      = Some store
    ∧ StoreManager.get_store (PlatformConfig.store_code (MMConfig.b2b config'))
      = Some store
    ∧ MMConfig.b2b_auth config' = MMConfig.b2b_auth config
    ∧ MMConfig.timeout config' = MMConfig.timeout config
    ∧ MMConfig.retry_attempts config' = MMConfig.retry_attempts config
    ∧ MMConfig.rate_limit_delay config' = MMConfig.rate_limit_delay config
    ∧ MMConfig.user_agent config' = MMConfig.user_agent config
    ∧ PlatformConfig.endpoint (MMConfig.b2c config')
      = PlatformConfig.endpoint (MMConfig.b2c config)
    ∧ PlatformConfig.endpoint (MMConfig.b2b config')
      = PlatformConfig.endpoint (MMConfig.b2b config).
Proof.
  intros Hstore. unfold StoreManager.update_config_store. rewrite Hstore.
  eexists. split; [reflexivity|].
  unfold StoreManager.get_store, StoreManager.KNOWN_STORES in Hstore.
  apply elem_of_list_to_map_2 in Hstore.
  unfold StoreManager.KNOWN_STORES_items in Hstore.
  repeat (apply elem_of_cons in Hstore as [Hstore | Hstore];
          [injection Hstore as _ ->; repeat split; vm_compute; reflexivity|]).
  apply elem_of_nil in Hstore. contradiction.
Qed.

Lemma update_config_store_success_10015 :
  ∃ config',
    StoreManager.update_config_store (MMConfig.from_env None None JNull) "mm_10015_vi"
    = (true, config')
    ∧ PlatformConfig.store_code (MMConfig.b2c config') = "b2c_10015_vi"
    ∧ PlatformConfig.store_code (MMConfig.b2b config') = "mm_10015_vi".
Proof.
  destruct (update_config_store_success (MMConfig.from_env None None JNull) "mm_10015_vi"
              {| Store.code := "10015"; Store.name := "MM Mega Market Bình Phú";
                 Store.region := Some "South" |})
    as (config' & Hrun & Hb2c & Hb2b & _).
  - vm_compute. reflexivity.
  - exists config'. split; [exact Hrun|]. split; [exact Hb2c | exact Hb2b].
Defined.

(** Every store of the directory is filed under the region South: a
    region whose lower-case form is that of [South] selects the whole
    directory, and every other region, [North] and [Central] included
    when they differ from it in lower case, selects nothing. *)
Theorem get_stores_by_region_south_or_nothing `{PyRuntime} (region : string) :
  get_stores_by_region region
  = if String.eqb (str_lower "South") (str_lower region)
    then known_stores_values else [].
Proof.
  unfold get_stores_by_region, known_stores_values, in_region. cbn.
  destruct (String.eqb (str_lower "South") (str_lower region)); reflexivity.
Qed.

Section StoreListingRuns.
Context `{PyRuntime} (backend : Backend).






End StoreListingRuns.


(** ** config.py and auth.py: credentials and tokens handed to the client *)

(** A login sends the credentials it was called with, and for an argument
    that is absent or empty those set by [set_b2b_credentials]: exactly
    one POST to the business endpoint, with these two variables and
    without an [Authorization] header. *)
Theorem login_sends_the_chosen_credentials (backend : Backend)
    (username password : option string) (cfg_user cfg_pass : string)
    (s : State) (email pwd : string) :
  let cfg := Config.set_b2b_credentials (config s) cfg_user cfg_pass in
  let s1 := set_config cfg s in
  py_or username (Some cfg_user) = Some email → email ≠ "" →
  py_or password (Some cfg_pass) = Some pwd → pwd ≠ "" →
  sent_requests (new_events s1 (snd (authenticate_b2b backend username password s1)))
  = [ {| method := POST;
         url := PlatformConfig.endpoint (MMConfig.b2b (config s));
         query := GENERATE_TOKEN_MUTATION;
         operation_name := Some "generateCustomerToken";
         variables := Some (JDict [("email", JStr email); ("password", JStr pwd)]);
         headers := base_headers (PlatformConfig.store_code (MMConfig.b2b (config s)))
                                 (config s);
         req_timeout := MMConfig.timeout (config s) |} ].
Proof.
  intros cfg s1 Hemail He Hpwd Hp.
  apply String.eqb_neq in He, Hp.
  unfold authenticate_b2b. munfold. cbv beta iota zeta.
  cbn [config set_config s1 cfg Config.set_b2b_credentials MMConfig.b2b_auth
       AuthConfig.username AuthConfig.password].
  rewrite Hemail, Hpwd. cbn [str_truthy]. rewrite He, Hp. cbn [negb orb].
  run_cases; cbn [snd]; unfold new_events;
    cbn [log advance set_config set_b2b_token];
    rewrite drop_app_length; reflexivity.
Qed.

Lemma login_sends_the_chosen_credentials_mixed :
  sent_requests
    (new_events
       (set_config (Config.set_b2b_credentials (config client_anonymous)
                      "buyer@example.com" "secret") client_anonymous)
       (snd (authenticate_b2b backend_auth (Some "") (Some "hunter2")
               (set_config (Config.set_b2b_credentials (config client_anonymous)
                              "buyer@example.com" "secret") client_anonymous))))
  = [ {| method := POST;
         url := "https://mmpro.vn/graphql";
         query := GENERATE_TOKEN_MUTATION;
         operation_name := Some "generateCustomerToken";
         variables := Some (JDict [("email", JStr "buyer@example.com");
                                   ("password", JStr "hunter2")]);
         headers := base_headers "mm_10010_vi" (config client_anonymous);
         req_timeout := 30 |} ].
Proof.
  apply (login_sends_the_chosen_credentials backend_auth (Some "") (Some "hunter2")
           "buyer@example.com" "secret" client_anonymous "buyer@example.com" "hunter2");
    [reflexivity | discriminate | reflexivity | discriminate].
Defined.

(** A client created from a configuration that was handed a non-empty
    token through [set_b2b_token] counts as authenticated from the start,
    and the first request of a business query, if one is made, is a GET
    that carries that token as its bearer. *)
Theorem preset_token_is_sent `{PyRuntime} (backend : Backend)
    (cfg : MMConfig.t) (token : string) (now : Q)
    (query_text : string) (vars : json) (op_name : string) :
  token ≠ "" →
  let s := MMAPIClient_init (Config.set_b2b_token cfg token) now in
  let s' := snd (_execute_query backend "b2b" query_text vars op_name s) in
  is_b2b_authenticated s = (Ok true, s)
  ∧ ∀ r, head (sent_requests (new_events s s')) = Some r →
         method r = GET
         ∧ url r = PlatformConfig.endpoint (MMConfig.b2b cfg)
         ∧ headers r
           = base_headers (PlatformConfig.store_code (MMConfig.b2b cfg)) cfg
             ++ [("Authorization", ("Bearer " ++ token)%string)].
Proof.
  intros Htoken s s'. apply String.eqb_neq in Htoken.
  assert (Htok : b2b_token s = JStr token).
  { unfold s, MMAPIClient_init, Config.set_b2b_token. cbn. rewrite Htoken. reflexivity. }
  assert (Hcfgs : config s = Config.set_b2b_token cfg token) by reflexivity.
  clearbody s. split.
  { unfold is_b2b_authenticated. munfold. rewrite Htok. reflexivity. }
  unfold s'. rewrite execute_query_unfold. cbv zeta.
  destruct (rate_limit_run s) as (s0 & Hrl & _ & Hcfg & Htok0 & _).
  destruct (rate_limit_sends_nothing s) as (l0 & Hl0 & Hs0 & _).
  rewrite Hrl in *. cbn [snd] in *.
  cbn [String.eqb Ascii.eqb Bool.eqb andb].
  rewrite Hcfg, Htok0, Htok.
  set (endpoint := PlatformConfig.endpoint _).
  set (hdrs := b2b_headers _ _).
  destruct (Z.to_nat (MMConfig.retry_attempts (config s))) as [|k].
  - intros r. rewrite (new_events_app s _ l0) by exact Hl0.
    rewrite Hs0. discriminate.
  - destruct (attempt_loop_step backend "b2b" endpoint query_text op_name vars
                k 0%Z hdrs s0
                (attempt_loop_bounded backend "b2b" endpoint query_text op_name vars k))
      as (_ & l & Hl & _).
    cbn [log advance] in Hl. intros r.
    erewrite new_events_app; [|rewrite Hl, Hl0, <- !app_assoc; reflexivity].
    rewrite sent_requests_app, Hs0. cbn. intros [= <-].
    split; [reflexivity|]. unfold endpoint, hdrs, b2b_headers.
    rewrite Hcfgs. cbn. rewrite Htoken. split; reflexivity.
Qed.

Lemma preset_token_is_sent_shop :
  is_b2b_authenticated client_with_token = (Ok true, client_with_token)
  ∧ ∀ r, head (sent_requests
                 (new_events client_with_token
                    (snd (@_execute_query simple_runtime backend_shop "b2b"
                            PRODUCT_SEARCH_QUERY (search_variables "gao" 1 24)
                            "ProductSearch" client_with_token)))) = Some r →
         method r = GET
         ∧ url r = "https://mmpro.vn/graphql"
         ∧ headers r
           = base_headers "mm_10010_vi" (MMConfig.from_env None None JNull)
             ++ [("Authorization", "Bearer t0k3n")].
Proof.
  apply (@preset_token_is_sent simple_runtime backend_shop
           (MMConfig.from_env None None JNull) "t0k3n" 100
           PRODUCT_SEARCH_QUERY (search_variables "gao" 1 24) "ProductSearch").
  discriminate.
Defined.
